(** * email_cer_parser: a shallow embedding of [main.py]

    The webhook of [main.py] receives a forwarded e-mail, asks a text
    generation service for eight fields, classifies the request number by a
    fixed table, normalises the date and appends one row to a spreadsheet tab.

    The embedding follows the source function by function.  Python values
    are the inductive [pyval]; a [dict] is a [gmap] with string keys; the
    external services (the generation API, [json.loads], [dateutil]'s
    [parse], the spreadsheet API) are fields of a record of oracles, so every
    statement holds for whatever those services answer.  Exceptions and the
    mutable spreadsheet are threaded through a small state-and-error monad. *)

From Stdlib Require Import ZArith String Ascii List DecimalString.
From Stdlib Require Import DecimalPos DecimalN.
From stdpp Require Import base option list gmap strings.

Local Open Scope string_scope.
Local Open Scope Z_scope.

(** ** Python strings

    A [str] is modelled by [string]; one [ascii] stands for one character
    (code points below 256).  Indices are [Z], as Python's are, because
    [find] answers [-1] and slices accept negative bounds. *)

Module PyStr.

Definition len (s : string) : Z := Z.of_nat (String.length s).

(** [adjust n i]: how a slice bound [i] is brought into [0..n]
    (negative bounds count from the end, everything is clamped). *)
Definition adjust (n i : Z) : Z :=
  if i <? 0 then Z.max 0 (i + n) else Z.min i n.

(** [s[start:stop]] *)
Definition slice (s : string) (start stop : Z) : string :=
  let a := adjust (len s) start in
  let b := adjust (len s) stop in
  String.substring (Z.to_nat a) (Z.to_nat (b - a)) s.

(** [s.find(c)] for a one-character needle: the least index, or [-1]. *)
Fixpoint find (c : ascii) (s : string) : Z :=
  match s with
  | EmptyString => -1
  | String a s' =>
      if Ascii.eqb a c then 0
      else let r := find c s' in if r <? 0 then -1 else r + 1
  end.

(** [s.rfind(c)]: the greatest index, or [-1]. *)
Fixpoint rfind (c : ascii) (s : string) : Z :=
  match s with
  | EmptyString => -1
  | String a s' =>
      let r := rfind c s' in
      if 0 <=? r then r + 1
      else if Ascii.eqb a c then 0 else -1
  end.

(** [c in s] for a one-character needle. *)
Fixpoint occurs (c : ascii) (s : string) : bool :=
  match s with
  | EmptyString => false
  | String a s' => Ascii.eqb a c || occurs c s'
  end.

(** [c.isspace()] on code points below 256. *)
Definition isspace (c : ascii) : bool :=
  let n := N_of_ascii c in
  ((9 <=? n) && (n <=? 13) || (28 <=? n) && (n <=? 32)
   || (n =? 133) || (n =? 160))%N.

Fixpoint lstrip (s : string) : string :=
  match s with
  | EmptyString => EmptyString
  | String a s' => if isspace a then lstrip s' else s
  end.

(** [rstrip] keeps a character when it is not a space or when something
    is left after it. *)
Fixpoint rstrip (s : string) : string :=
  match s with
  | EmptyString => EmptyString
  | String a s' =>
      match rstrip s' with
      | EmptyString => if isspace a then EmptyString else String a EmptyString
      | r => String a r
      end
  end.


(** [s.strip()] *)
Definition strip (s : string) : string := rstrip (lstrip s).

(** Truth value of a string: [not s] holds for the empty string only. *)
Definition truthy (s : string) : bool :=
  match s with EmptyString => false | _ => true end.

(** [str(n)] for an integer. *)
Definition of_Z (z : Z) : string := NilZero.string_of_int (Z.to_int z).
Definition of_N (n : N) : string := NilZero.string_of_uint (N.to_uint n).

End PyStr.

(** ** Python values

    What [json.loads] can produce: [None], booleans, integers, floats,
    strings, lists and dicts.  A float is kept as its printed form, which is
    never empty: [float_head] is its first character. *)

#[local] Set Warnings "-register-all".

Inductive pyval : Type :=
| PNone
| PBool (b : bool)
| PInt (z : Z)
| PFloat (float_head : ascii) (float_tail : string)
| PStr (s : string)
| PList (l : list pyval)
| PDict (d : gmap string pyval).

Abbreviation pydict := (gmap string pyval).

(** [d.get(k, default)] *)
Definition dict_get (d : pydict) (k : string) (default : pyval) : pyval :=
  from_option id default (d !! k).

(** [type(v).__name__] *)
Definition type_name (v : pyval) : string :=
  match v with
  | PNone => "NoneType"
  | PBool _ => "bool"
  | PInt _ => "int"
  | PFloat _ _ => "float"
  | PStr _ => "str"
  | PList _ => "list"
  | PDict _ => "dict"
  end.

(** Truth value of a Python object, as [if not v] tests it. *)
Definition truthy (v : pyval) : bool :=
  match v with
  | PNone => false
  | PBool b => b
  | PInt z => negb (z =? 0)
  | PFloat h t =>
      negb (String.eqb (String h t) "0.0" || String.eqb (String h t) "-0.0")
  | PStr s => PyStr.truthy s
  | PList l => match l with [] => false | _ => true end
  | PDict d => negb (bool_decide (d = ∅))
  end.

(** ** Exceptions

    An exception is its class and its message ([str(e)]).  Only the classes
    that some [except] clause of the program tells apart are named; an
    instance of a subclass is filed under its named base ([ParserError] and
    [JSONDecodeError] are [ValueError]s).  Every class here derives from
    [Exception]. *)

Inductive exn_class : Type :=
| ValueError
| TypeError
| AttributeError
| OverflowError
| WorksheetNotFound
| OtherException (name : string).

Record exn : Type := Exn { exn_cls : exn_class; exn_msg : string }.

Global Instance exn_class_eq_dec : EqDecision exn_class.
Proof. solve_decision. Defined.

(** The result of a call that may raise. *)
Inductive result (A : Type) : Type :=
| Ok (a : A)
| Raise (e : exn).
Arguments Ok {A} a.
Arguments Raise {A} e.

(** ** The market table *)

Definition NO_MATCH : string := "No Match".

Definition MARKET_KEY_items : list (string * string) :=
  [ ("1020", "Corporate"); ("1060", "IT&S"); ("5500", "East Texas"); ("5501", "East Texas");
    ("5504", "East Texas"); ("5505", "East Texas"); ("5510", "East Texas"); ("5515", "East Texas");
    ("5520", "East Texas"); ("5525", "East Texas"); ("5530", "East Texas"); ("5535", "East Texas");
    ("5540", "East Texas"); ("5550", "East Texas"); ("5400", "Idaho"); ("5404", "Idaho");
    ("5405", "Idaho"); ("5480", "Kansas"); ("5430", "New Jersey"); ("5440", "New Jersey");
    ("1500", "New Mexico"); ("5050", "New Mexico"); ("5055", "New Mexico"); ("5061", "New Mexico");
    ("5070", "New Mexico"); ("5082", "New Mexico"); ("5125", "New Mexico");
    ("1600", "Oklahoma"); ("5200", "Oklahoma"); ("5201", "Oklahoma"); ("5210", "Oklahoma");
    ("5230", "Oklahoma"); ("5251", "Oklahoma"); ("5260", "Oklahoma"); ("5265", "Oklahoma");
    ("5270", "Oklahoma"); ("5275", "Oklahoma"); ("5280", "Oklahoma"); ("5300", "West Texas");
    ("5301", "West Texas"); ("5310", "West Texas"); ("5311", "West Texas"); ("5316", "West Texas");
    ("5320", "West Texas"); ("5410", "West Texas"); ("5415", "West Texas") ].

Definition MARKET_KEY : gmap string string := list_to_map MARKET_KEY_items.

(** ** Helper functions *)

(** [get_market_from_cer(cer_number)] *)
Definition get_market_from_cer (cer_number : pyval) : string :=
  match cer_number with
  | PStr s =>
      if 4 <=? PyStr.len s
      then default NO_MATCH (MARKET_KEY !! PyStr.slice s 0 4)
      else NO_MATCH
  | _ => NO_MATCH
  end.

(** [GeminiProcessor.clean_json_response(text)] *)
Definition clean_json_response (text : string) : string :=
  let match_ := PyStr.slice text (PyStr.find "{" text) (PyStr.rfind "}" text + 1) in
  if PyStr.truthy match_ then match_ else "{}".

(** What [format_date_string] reads of a [datetime]. *)
Record datetime : Type := Datetime { dt_year : N; dt_month : N; dt_day : N }.

(** The f-string [f"{dt.month}/{dt.day}/{dt.year}"]. *)
Definition render_date (dt : datetime) : string :=
  PyStr.of_N (dt_month dt) ++ "/" ++ PyStr.of_N (dt_day dt) ++ "/" ++ PyStr.of_N (dt_year dt).

(** [except (ValueError, TypeError)] *)
Definition is_value_or_type_error (e : exn) : bool :=
  match exn_cls e with
  | ValueError | TypeError => true
  | _ => false
  end.

Section FormatDate.

(** [dateutil.parser.parse(s, fuzzy=True)], an external library: it
    answers a date or raises. *)
Variable parse : string -> result datetime.

(** [format_date_string(date_str)].  A value that is true and is not a
    string has no [strip] method; that [AttributeError] is not one of the
    two classes the handler names, so it leaves the function. *)
Definition format_date_string (date_str : pyval) : result pyval :=
  if negb (truthy date_str) then Ok (PStr "")
  else
    match date_str with
    | PStr s =>
        match parse (PyStr.strip s) with
        | Ok dt_object => Ok (PStr (render_date dt_object))
        | Raise e =>
            if is_value_or_type_error e then Ok date_str else Raise e
        end
    | v =>
        Raise (Exn AttributeError
                 ("'" ++ type_name v ++ "' object has no attribute 'strip'"))
    end.

End FormatDate.


(** ** The world around the handler *)

(** One row of a worksheet, a worksheet (its rows, oldest first), a
    spreadsheet (its tabs by title) and the drive (spreadsheets by name). *)
Abbreviation row := (list pyval).
Abbreviation worksheet := (list (list pyval)).
Abbreviation spreadsheet := (gmap string (list (list pyval))).
Abbreviation drive := (gmap string (gmap string (list (list pyval)))).

(** The calls made to the spreadsheet service. *)
Inductive api_call : Type :=
| ApiAuthorize
| ApiOpen (name : string)
| ApiWorksheet (title : pyval)
| ApiAddWorksheet (title : pyval)
| ApiAppendRow (title : string) (r : list pyval).

(** The components the webhook handler calls. *)
Inductive component : Type :=
| ExtractionClient
| DateNormalizer
| Classifier
| SheetWriter.

(** One constructor for each [print] of the program, with the values it
    interpolates. *)
Inductive log_line : Type :=
| LogWebhookReceived
| LogApiConfigError (e : exn)
| LogNoCer
| LogCriticalError (e : exn)
| LogSheetsConnecting
| LogSheetsConnected
| LogOpening (name : string)
| LogOpened
| LogMarket (market : pyval)
| LogFoundTab (market : pyval)
| LogCreatingTab (market : pyval)
| LogHeaderAdded
| LogPreparingRow (r : list pyval)
| LogWroteTab (market : pyval)
| LogSheetError (e : exn).

(** What an observer sees, in order: lines printed, components entered by
    the handler, requests sent to the generation service and to the
    spreadsheet service. *)
Inductive event : Type :=
| Printed (l : log_line)
| Entered (c : component)
| Generate (prompt : string)
| Remote (c : api_call).

(** The mutable part: the spreadsheets, the failures the spreadsheet service
    is going to answer to the coming calls (one entry per call, [None] or a
    missing entry for a call that goes through), and the events so far. *)
Record state : Type := State {
  st_drive : gmap string (gmap string (list (list pyval)));
  st_faults : list (option exn);
  st_trace : list event
}.

(** Everything the program reads but does not own: the environment
    variables and the library functions it calls. *)
Record services : Type := Services {
  env : gmap string string;
  (** the text between the brackets of [str] of a list and of a dict *)
  repr_items : list pyval -> string;
  repr_entries : gmap string pyval -> string;
  (** [genai.configure(api_key=k)] and [genai.GenerativeModel(name)] *)
  genai_configure : string -> option exn;
  genai_model : string -> option exn;
  (** [model.generate_content(prompt).text] *)
  generate_content : string -> result string;
  json_loads : string -> result pyval;
  (** [dateutil.parser.parse(s, fuzzy=True)] *)
  parse : string -> result datetime;
  (** [Credentials.from_service_account_info(info, scopes=scopes)] *)
  credentials_from_info : pyval -> list string -> option exn
}.

(** ** A state-and-error monad *)

Definition M (A : Type) : Type := state -> result A * state.

Global Instance M_ret : MRet M := fun A a s => (Ok a, s).
Global Instance M_bind : MBind M := fun A B f m s =>
  match m s with
  | (Ok a, s') => f a s'
  | (Raise e, s') => (Raise e, s')
  end.

Definition raise {A : Type} (e : exn) : M A := fun s => (Raise e, s).

(** [try: m  except Exception as e: h e] *)
Definition try_except {A : Type} (m : M A) (h : exn -> M A) : M A := fun s =>
  match m s with
  | (Ok a, s') => (Ok a, s')
  | (Raise e, s') => h e s'
  end.

Definition lift {A : Type} (r : result A) : M A := fun s => (r, s).

Definition lift_check (o : option exn) : M unit :=
  match o with
  | None => mret ()
  | Some e => raise e
  end.

Definition emit (ev : event) : M unit := fun s =>
  (Ok (), State (st_drive s) (st_faults s) (st_trace s ++ [ev])).

Definition print (l : log_line) : M unit := emit (Printed l).

Definition get_drive : M drive := fun s => (Ok (st_drive s), s).

Definition put_drive (d : drive) : M unit := fun s =>
  (Ok (), State d (st_faults s) (st_trace s)).

(** [log s evs]: the state [s] after the events [evs], nothing else changed. *)
Definition log (s : state) (evs : list event) : state :=
  State (st_drive s) (st_faults s) (st_trace s ++ evs).

(** An event that is neither the entry into the spreadsheet writer nor a
    request to the spreadsheet service. *)
Definition quiet (ev : event) : bool :=
  match ev with
  | Entered SheetWriter | Remote _ => false
  | _ => true
  end.

(** A computation that only adds quiet events to the state. *)
Definition runs_quietly {A : Type} (m : state -> result A * state) : Prop :=
  forall s, exists r evs, m s = (r, log s evs) /\ forallb quiet evs = true.

(** A request to the spreadsheet service: it is recorded, and it fails when
    the next scheduled answer is a failure. *)
Definition remote (c : api_call) : M unit := fun s =>
  let s' := State (st_drive s) (tail (st_faults s)) (st_trace s ++ [Remote c]) in
  match head (st_faults s) with
  | Some (Some e) => (Raise e, s')
  | _ => (Ok (), s')
  end.

(** ** The program *)

Definition dq : string := String "034" "".
Definition nl : string := String "010" "".
Definition quoted (s : string) : string := dq ++ s ++ dq.

(** The instruction text of [extract_data_from_email], line by line. *)
Definition PROMPT_lines : list string :=
  [ "";
    "        Analyze the email content. Extract the following fields:";
    "        - " ++ quoted "Forwarded Date" ++ ": The 'Sent' date from the Tim Huffman email. Format it strictly as YYYY-MM-DD.";
    "        - " ++ quoted "Ardent CER#" ++ ": The Capital Equipment Request number, often following " ++ quoted "CER:" ++ ".";
    "        - " ++ quoted "Notes" ++ ": A concise project description (e.g., " ++ quoted "ED Expansion" ++ ", " ++ quoted "OR Tables" ++ ").";
    "        - " ++ quoted "Capital $" ++ ": A number only, converting 'k' to thousands (e.g., $315k becomes 315000).";
    "        - " ++ quoted "ETA/Install" ++ ": The estimated arrival or installation date/quarter.";
    "        - " ++ quoted "Mfg" ++ ": Based on the notes and content, infer the Manufacturer.";
    "        - " ++ quoted "Model" ++ ": Based on the notes and content, infer the specific Model.";
    "        - " ++ quoted "URL" ++ ": The ERP link, which is a URL usually starting with " ++ quoted "http" ++ ".";
    "        Return a single, minified JSON object. If a field is not found, use an empty string " ++ quoted "" ++ ".";
    "        ---";
    "        Email Content:";
    "        " ].

Definition PROMPT : string := String.concat nl PROMPT_lines.

Definition HEADER : list string :=
  [ "Forwarded Date"; "Market"; "Ardent CER#"; "Capital $"; "Notes"; "Mfg";
    "Model"; "ETA/Install"; "URL"; "Source Email" ].

Definition SCOPES : list string :=
  [ "https://www.googleapis.com/auth/spreadsheets";
    "https://www.googleapis.com/auth/drive.file" ].

(** The mark that opens the success text, as the bytes of the source. *)
Definition CHECK_MARK : string := "‚úÖ".

(** An HTTP answer: the text and the status code. *)
Record response : Type := Response { body : string; status : Z }.

Section Program.

Variable sv : services.

(** [os.getenv(name)] *)
Definition getenv (name : string) : option string := env sv !! name.

(** [str(v)] *)
Definition py_str (v : pyval) : string :=
  match v with
  | PNone => "None"
  | PBool b => if b then "True" else "False"
  | PInt z => PyStr.of_Z z
  | PFloat h t => String h t
  | PStr s => s
  | PList l => "[" ++ repr_items sv l ++ "]"
  | PDict d => "{" ++ repr_entries sv d ++ "}"
  end.

(** The object a method of [dict] is called on: anything else that
    [json.loads] can return has no [get]. *)
Definition as_dict (o : pyval) : result (gmap string pyval) :=
  match o with
  | PDict d => Ok d
  | v => Raise (Exn AttributeError
                  ("'" ++ type_name v ++ "' object has no attribute 'get'"))
  end.

(** *** GeminiProcessor *)

(** [GeminiProcessor.__init__] *)
Definition GeminiProcessor_init : M unit :=
  try_except
    (let api_key := getenv "GEMINI_API_KEY" in
     if negb (from_option PyStr.truthy false api_key)
     then raise (Exn ValueError "GEMINI_API_KEY not found in environment variables.")
     else
       lift_check (genai_configure sv (default "" api_key));;
       lift_check (genai_model sv "gemini-1.5-flash-latest"))
    (fun e => print (LogApiConfigError e);; raise e).

(** [GeminiProcessor.extract_data_from_email(email_body)] *)
Definition extract_data_from_email (email_body : string) : M pyval :=
  let prompt := PROMPT ++ email_body in
  try_except
    (emit (Generate prompt);;
     text ← lift (generate_content sv prompt);
     lift (json_loads sv (clean_json_response text)))
    (fun e =>
       raise (Exn ValueError
                ("Gemini API call or JSON parsing failed: " ++ exn_msg e))).

(** *** Google Sheets *)

(** [get_gspread_client()] *)
Definition get_gspread_client : M unit :=
  let creds_json := getenv "GOOGLE_CREDENTIALS_JSON" in
  if negb (from_option PyStr.truthy false creds_json)
  then raise (Exn ValueError "GOOGLE_CREDENTIALS_JSON environment variable not set.")
  else
    creds_dict ← lift (json_loads sv (default "" creds_json));
    lift_check (credentials_from_info sv creds_dict SCOPES);;
    remote ApiAuthorize.

(** [client.open(name)]: the spreadsheet of that name, if there is one. *)
Definition client_open (name : string) : M string :=
  remote (ApiOpen name);;
  d ← get_drive;
  match d !! name with
  | Some _ => mret name
  | None => raise (Exn (OtherException "SpreadsheetNotFound") name)
  end.

(** The tab of a spreadsheet that bears a title; titles are strings, so
    no tab bears a value of another type. *)
Definition find_tab (d : drive) (name : string) (title : pyval)
    : option (string * list (list pyval)) :=
  match title with
  | PStr t => sh ← d !! name; ws ← sh !! t; Some (t, ws)
  | _ => None
  end.

(** [spreadsheet.worksheet(title)] *)
Definition spreadsheet_worksheet (name : string) (title : pyval) : M string :=
  remote (ApiWorksheet title);;
  d ← get_drive;
  match find_tab d name title with
  | Some (t, _) => mret t
  | None => raise (Exn WorksheetNotFound (py_str title))
  end.

(** [spreadsheet.add_worksheet(title=title, rows=..., cols=...)]: the
    service refuses a title that is taken or is not a string. *)
Definition spreadsheet_add_worksheet (name : string) (title : pyval) : M string :=
  remote (ApiAddWorksheet title);;
  d ← get_drive;
  match title, d !! name with
  | PStr t, Some sh =>
      match sh !! t with
      | None => put_drive (<[name := <[t := []]> sh]> d);; mret t
      | Some _ => raise (Exn (OtherException "APIError") t)
      end
  | _, _ => raise (Exn (OtherException "APIError") (py_str title))
  end.

(** [worksheet.append_row(r)]: the row goes after the last one. *)
Definition worksheet_append_row (name t : string) (r : list pyval) : M unit :=
  remote (ApiAppendRow t r);;
  d ← get_drive;
  match sh ← d !! name; ws ← sh !! t; Some (sh, ws) with
  | Some (sh, ws) => put_drive (<[name := <[t := (ws ++ [r])%list]> sh]> d)
  | None => raise (Exn (OtherException "APIError") t)
  end.

(** [row_to_add] *)
Definition row_to_add (data : gmap string pyval) (market : pyval) : list pyval :=
  [ dict_get data "Forwarded Date" (PStr "");
    market;
    dict_get data "Ardent CER#" (PStr "");
    dict_get data "Capital $" (PStr "");
    dict_get data "Notes" (PStr "");
    dict_get data "Mfg" (PStr "");
    dict_get data "Model" (PStr "");
    dict_get data "ETA/Install" (PStr "");
    dict_get data "URL" (PStr "");
    dict_get data "Source Email" (PStr "") ].

(** The body of the [try] of [update_google_sheet]. *)
Definition update_google_sheet_try (data : gmap string pyval) : M unit :=
  print LogSheetsConnecting;;
  get_gspread_client;;
  print LogSheetsConnected;;
  let sheet_name := default "CER_Report" (getenv "GOOGLE_SHEET_NAME") in
  print (LogOpening sheet_name);;
  spreadsheet ← client_open sheet_name;
  print LogOpened;;
  let market := dict_get data "Market" (PStr "Unknown") in
  print (LogMarket market);;
  t ← try_except
        (t ← spreadsheet_worksheet spreadsheet market;
         print (LogFoundTab market);;
         mret t)
        (fun e =>
           if bool_decide (exn_cls e = WorksheetNotFound) then
             print (LogCreatingTab market);;
             t ← spreadsheet_add_worksheet spreadsheet market;
             worksheet_append_row spreadsheet t (PStr <$> HEADER);;
             print LogHeaderAdded;;
             mret t
           else raise e);
  let r := row_to_add data market in
  print (LogPreparingRow r);;
  worksheet_append_row spreadsheet t r;;
  print (LogWroteTab market).

(** [update_google_sheet(data)] *)
Definition update_google_sheet (data : gmap string pyval) : M unit :=
  try_except (update_google_sheet_try data)
             (fun e => print (LogSheetError e)).

(** *** The webhook *)

(** [request.form.get(k)] as a Python value. *)
Definition form_get (form : gmap string string) (k : string) : pyval :=
  match form !! k with
  | Some s => PStr s
  | None => PNone
  end.

(** The body of the [try] of [handle_email]. *)
Definition handle_email_try (email_body : string) (email_from : pyval) : M response :=
  emit (Entered ExtractionClient);;
  GeminiProcessor_init;;
  extracted ← extract_data_from_email email_body;
  extracted_data ← lift (as_dict extracted);
  let cer_number := py_str (dict_get extracted_data "Ardent CER#" (PStr "")) in
  if negb (PyStr.truthy cer_number) then
    print LogNoCer;;
    mret (Response "Failed: Could not extract CER#." 400)
  else
    emit (Entered DateNormalizer);;
    date ← lift (format_date_string (parse sv)
                   (dict_get extracted_data "Forwarded Date" PNone));
    let extracted_data := <["Forwarded Date" := date]> extracted_data in
    emit (Entered Classifier);;
    let market := get_market_from_cer (PStr cer_number) in
    let extracted_data := <["Market" := PStr market]> extracted_data in
    let extracted_data := <["Source Email" := email_from]> extracted_data in
    emit (Entered SheetWriter);;
    update_google_sheet extracted_data;;
    mret (Response (CHECK_MARK ++ " Success: Email processed and sheet updated.") 200).

(** [handle_email()], given the form of the request. *)
Definition handle_email (form : gmap string string) : M response :=
  print LogWebhookReceived;;
  let email_body := form !! "text" in
  let email_from := form_get form "from" in
  if negb (from_option PyStr.truthy false email_body)
  then mret (Response "Failed: No email body content." 400)
  else
    try_except
      (handle_email_try (default "" email_body) email_from)
      (fun e =>
         print (LogCriticalError e);;
         mret (Response ("Internal server error: " ++ exn_msg e) 500)).

End Program.

(** The spreadsheet the program writes to, and what it takes for the client
    of the spreadsheet service to be built: the credentials are in the
    environment, they are JSON, and the library accepts them. *)
Definition sheet_name (sv : services) : string :=
  default "CER_Report" (getenv sv "GOOGLE_SHEET_NAME").

Definition credentials_accepted (sv : services) : Prop :=
  exists creds_json creds_dict,
    getenv sv "GOOGLE_CREDENTIALS_JSON" = Some creds_json
    /\ creds_json <> ""
    /\ json_loads sv creds_json = Ok creds_dict
    /\ credentials_from_info sv creds_dict SCOPES = None.

(** ** Sample worlds

    Concrete services and requests on which the statements below are
    exercised.  [parse] is a table of answers of [dateutil]: an ISO date and
    a month/day/year date are read as written; the year of 0001-01-01 is
    kept, as its four digits give the century, while the year of 1/1/1 is
    read as a year of the current century; the digits 08335394550 are taken
    for a year, which [datetime] refuses with an [OverflowError] as it is
    beyond the range of a C integer; text without a date is a
    [ParserError], a [ValueError]. *)

Module Sample.

Definition parse_table (s : string) : result datetime :=
  if String.eqb s "2024-01-05" then Ok (Datetime 2024 1 5)
  else if String.eqb s "1/5/2024" then Ok (Datetime 2024 1 5)
  else if String.eqb s "0001-01-01" then Ok (Datetime 1 1 1)
  else if String.eqb s "1/1/1" then Ok (Datetime 2001 1 1)
  else if String.eqb s "08335394550"
       then Raise (Exn OverflowError "signed integer is greater than maximum")
  else Raise (Exn ValueError ("String does not contain a date: " ++ s)).

Definition field (k v : string) : string := quoted k ++ ":" ++ quoted v.

(** A minified JSON object with the eight fields. *)
Definition REPLY_JSON : string :=
  "{" ++ String.concat ","
    [ field "Forwarded Date" "2024-01-05"; field "Ardent CER#" "5510-001";
      field "Notes" "ED Expansion"; field "Capital $" "315000";
      field "ETA/Install" "Q3 2024"; field "Mfg" "Stryker";
      field "Model" "T5"; field "URL" "http://erp.example/cer/1" ] ++ "}".

Definition REPLY_FIELDS : gmap string pyval :=
  list_to_map
    [ ("Forwarded Date", PStr "2024-01-05"); ("Ardent CER#", PStr "5510-001");
      ("Notes", PStr "ED Expansion"); ("Capital $", PStr "315000");
      ("ETA/Install", PStr "Q3 2024"); ("Mfg", PStr "Stryker");
      ("Model", PStr "T5"); ("URL", PStr "http://erp.example/cer/1") ].

(** The same object without a request number, and with a date that is a
    number. *)
Definition NO_CER_JSON : string := "{" ++ field "Ardent CER#" "" ++ "}".
Definition INT_DATE_JSON : string :=
  "{" ++ field "Ardent CER#" "5510-001" ++ "," ++ quoted "Forwarded Date" ++ ":20240105}".

Definition loads_table (s : string) : result pyval :=
  if String.eqb s REPLY_JSON then Ok (PDict REPLY_FIELDS)
  else if String.eqb s NO_CER_JSON then Ok (PDict {[ "Ardent CER#" := PStr "" ]})
  else if String.eqb s INT_DATE_JSON
       then Ok (PDict (<["Forwarded Date" := PInt 20240105]>
                         {[ "Ardent CER#" := PStr "5510-001" ]}))
  else if String.eqb s "{}" then Ok (PDict ∅)
  else if String.eqb s "{not json}"
       then Raise (Exn ValueError
                     "Expecting property name enclosed in double quotes: line 1 column 2 (char 1)")
  else Raise (Exn ValueError "Expecting value: line 1 column 1 (char 0)").

(** Services that answer [reply] to every prompt. *)
Definition services_with (environ : gmap string string) (reply : result string)
    : services :=
  {| env := environ;
     repr_items := fun _ => "...";
     repr_entries := fun _ => "...";
     genai_configure := fun _ => None;
     genai_model := fun _ => None;
     generate_content := fun _ => reply;
     json_loads := loads_table;
     parse := parse_table;
     credentials_from_info := fun _ _ => None |}.

Definition ENV : gmap string string :=
  <["GEMINI_API_KEY" := "secret"]> {[ "GOOGLE_CREDENTIALS_JSON" := "{}" ]}.

Definition good : services :=
  services_with ENV (Ok ("Here is the JSON you asked for: " ++ REPLY_JSON ++ " Anything else?")).
Definition no_cer : services := services_with ENV (Ok NO_CER_JSON).
Definition int_date : services := services_with ENV (Ok INT_DATE_JSON).
Definition no_json : services := services_with ENV (Ok "I could not read this email.").
Definition bad_json : services := services_with ENV (Ok "{not json}").
Definition no_key : services := services_with ∅ (Ok REPLY_JSON).

Definition BODY : string := "Sent: Jan 5, 2024 CER: 5510-001 ED Expansion $315k".
Definition FORM : gmap string string :=
  <["text" := BODY]> {[ "from" := "relay@example.com" ]}.

(** A drive with the report, one tab in it, and a service that answers
    every call; the same with a service that fails the first call. *)
Definition DRIVE : gmap string (gmap string (list (list pyval))) :=
  {[ "CER_Report" := {[ "Idaho" := [PStr <$> HEADER] ]} ]}.
Definition start : state := State DRIVE [] [].

End Sample.

(** ** Further definitions *)

(** The names that occur in the market table. *)
Definition MARKET_NAMES : list string :=
  [ "Corporate"; "IT&S"; "East Texas"; "Idaho"; "Kansas"; "New Jersey";
    "New Mexico"; "Oklahoma"; "West Texas" ].

(** [keeps R m]: every run of [m], whatever it returns or raises, relates
    the spreadsheets it found to the spreadsheets it leaves by [R]. *)
Definition keeps {A : Type} (R : relation (gmap string (gmap string (list (list pyval)))))
    (m : state -> result A * state) : Prop :=
  forall s r s', m s = (r, s') -> R (st_drive s) (st_drive s').

(** [returns P m]: what [m] returns, when it returns, satisfies [P]. *)
Definition returns {A : Type} (P : A -> Prop) (m : state -> result A * state) : Prop :=
  forall s a s', m s = (Ok a, s') -> P a.

(** [appends_to name t d d']: the drive [d'] is [d], or it is [d] with rows
    added at the end of the tab [t] of the spreadsheet [name] (a tab that
    was not there counts as empty). *)
Definition appends_to (name t : string)
    (d d' : gmap string (gmap string (list (list pyval)))) : Prop :=
  d' = d
  \/ exists sheet rows,
       d !! name = Some sheet
       /\ d' = <[name := <[t := (default [] (sheet !! t) ++ rows)%list]> sheet]> d.

(** A service whose reply holds the request number and a market of its own
    making, and nothing else. *)
Definition SPARSE_JSON : string :=
  "{" ++ Sample.field "Ardent CER#" "5400-17" ++ "," ++ Sample.field "Market" "Mars" ++ "}".

Definition SPARSE_FIELDS : gmap string pyval :=
  <["Ardent CER#" := PStr "5400-17"]> {[ "Market" := PStr "Mars" ]}.

Definition sparse : services :=
  {| env := Sample.ENV;
     repr_items := fun _ => "...";
     repr_entries := fun _ => "...";
     genai_configure := fun _ => None;
     genai_model := fun _ => None;
     generate_content := fun _ => Ok SPARSE_JSON;
     json_loads := fun s =>
       if String.eqb s SPARSE_JSON then Ok (PDict SPARSE_FIELDS)
       else Sample.loads_table s;
     parse := Sample.parse_table;
     credentials_from_info := fun _ _ => None |}.

(** * Properties *)

(** ** Strings *)

Module PyStrFacts.
Import PyStr.

Lemma app_cons a s t : String a s ++ t = String a (s ++ t).
Proof. reflexivity. Qed.

Lemma app_nil_l s : "" ++ s = s.
Proof. reflexivity. Qed.

Lemma length_app s t :
  String.length (s ++ t) = (String.length s + String.length t)%nat.
Proof. induction s as [|a s IH]; [done|]. rewrite app_cons. simpl. by rewrite IH. Qed.

Lemma len_app s t : len (s ++ t) = len s + len t.
Proof. unfold len. rewrite length_app. lia. Qed.

Lemma len_nonneg s : 0 <= len s.
Proof. unfold len. lia. Qed.

Lemma len_cons a s : len (String a s) = len s + 1.
Proof. unfold len. simpl. lia. Qed.

(** The first [length k] characters of [k ++ rest] are [k]. *)
Lemma substring_app_l k rest :
  String.substring 0 (String.length k) (k ++ rest) = k.
Proof.
  induction k as [|a k IH].
  - rewrite app_nil_l. by destruct rest.
  - rewrite app_cons. simpl. by rewrite IH.
Qed.

(** Skipping [length pre] characters of [pre ++ s] leaves a substring of [s]. *)
Lemma substring_app_skip pre s m :
  String.substring (String.length pre) m (pre ++ s) = String.substring 0 m s.
Proof. induction pre as [|a pre IH]; [done|]. rewrite app_cons. simpl. apply IH. Qed.

Lemma substring_whole s : String.substring 0 (String.length s) s = s.
Proof. induction s as [|a s IH]; simpl; [done|]. by rewrite IH. Qed.

Lemma substring_0_0 s : String.substring 0 0 s = "".
Proof. by destruct s. Qed.

(** A slice between two bounds that lie inside the string. *)
Lemma slice_inside s (i j : Z) :
  0 <= i -> i <= len s -> 0 <= j -> j <= len s ->
  slice s i j = String.substring (Z.to_nat i) (Z.to_nat (j - i)) s.
Proof.
  intros Hi Hi' Hj Hj'. unfold slice, adjust.
  destruct (Z.ltb_spec i 0), (Z.ltb_spec j 0); try lia.
  by rewrite !Z.min_l by lia.
Qed.

(** [(pre ++ mid ++ post)[len pre : len pre + len mid] = mid] *)
Lemma slice_middle pre mid post :
  slice (pre ++ mid ++ post) (len pre) (len pre + len mid) = mid.
Proof.
  rewrite slice_inside; rewrite ?len_app;
    pose proof (len_nonneg pre); pose proof (len_nonneg mid);
    pose proof (len_nonneg post); try lia.
  replace (len pre + len mid - len pre) with (len mid) by lia.
  unfold len. rewrite !Nat2Z.id, substring_app_skip. apply substring_app_l.
Qed.

(** [(k ++ rest)[:4] = k] for a [k] of four characters. *)
Lemma slice_prefix4 k rest :
  String.length k = 4%nat -> slice (k ++ rest) 0 4 = k.
Proof.
  intros Hk. pose proof (slice_middle "" k rest) as H.
  unfold len in H. rewrite Hk in H. exact H.
Qed.

(** A string shorter than the slice is returned whole. *)
Lemma slice_short s (n : Z) : len s <= n -> slice s 0 n = s.
Proof.
  intros Hn. pose proof (len_nonneg s). unfold slice, adjust.
  destruct (Z.ltb_spec n 0); [lia|].
  change (0 <? 0) with false. cbv iota.
  rewrite (Z.min_l 0), (Z.min_r n) by lia.
  rewrite Z.sub_0_r. unfold len. rewrite Nat2Z.id. apply substring_whole.
Qed.

Lemma occurs_app c s t : occurs c (s ++ t) = occurs c s || occurs c t.
Proof.
  induction s as [|a s IH]; [done|]. rewrite app_cons. simpl.
  by rewrite IH, orb_assoc.
Qed.

Lemma find_bounds c s : -1 <= find c s < len s.
Proof.
  induction s as [|a s IH]; simpl; [unfold len; simpl; lia|].
  rewrite len_cons. destruct (Ascii.eqb a c); [pose proof (len_nonneg s); lia|].
  destruct (Z.ltb_spec (find c s) 0); lia.
Qed.

Lemma rfind_bounds c s : -1 <= rfind c s < len s.
Proof.
  induction s as [|a s IH]; simpl; [unfold len; simpl; lia|].
  rewrite len_cons. destruct (Z.leb_spec 0 (rfind c s)); [lia|].
  pose proof (len_nonneg s). destruct (Ascii.eqb a c); lia.
Qed.

(** [find] answers [-1] exactly when the character does not occur. *)
Lemma find_absent c s : occurs c s = false -> find c s = -1.
Proof.
  induction s as [|a s IH]; simpl; [done|].
  destruct (Ascii.eqb a c); simpl; [done|]. intros H. by rewrite IH.
Qed.

Lemma rfind_absent c s : occurs c s = false -> rfind c s = -1.
Proof.
  induction s as [|a s IH]; simpl; [done|].
  destruct (Ascii.eqb a c); simpl; [done|]. intros H. by rewrite IH.
Qed.

(** The first occurrence: nothing before it is [c]. *)
Lemma find_first c pre post :
  occurs c pre = false -> find c (pre ++ String c post) = len pre.
Proof.
  induction pre as [|a pre IH].
  - intros _. rewrite app_nil_l. simpl. by rewrite Ascii.eqb_refl.
  - rewrite app_cons. simpl. destruct (Ascii.eqb a c); simpl; [done|].
    intros H. rewrite IH by done. rewrite len_cons.
    pose proof (len_nonneg pre). destruct (Z.ltb_spec (len pre) 0); lia.
Qed.

(** The last occurrence: nothing after it is [c]. *)
Lemma rfind_last c pre post :
  occurs c post = false -> rfind c (pre ++ String c post) = len pre.
Proof.
  intros Hpost. induction pre as [|a pre IH].
  - rewrite app_nil_l. simpl. rewrite (rfind_absent _ _ Hpost). simpl.
    by rewrite Ascii.eqb_refl.
  - rewrite app_cons. simpl. rewrite IH, len_cons.
    pose proof (len_nonneg pre). destruct (Z.leb_spec 0 (len pre)); lia.
Qed.

(** Truth of a string. *)
Lemma truthy_nonempty s : s <> "" -> truthy s = true.
Proof. by destruct s. Qed.

Lemma truthy_empty_iff s : truthy s = false <-> s = "".
Proof. by destruct s. Qed.

End PyStrFacts.

(** ** The classifier *)

(** Every key of the table has four characters. *)
Lemma MARKET_KEY_key_length k name :
  MARKET_KEY !! k = Some name -> String.length k = 4%nat.
Proof.
  intros H. apply elem_of_list_to_map_2 in H.
  assert (Forall (fun p => String.length p.1 = 4%nat) MARKET_KEY_items) as Hall
    by (repeat constructor).
  rewrite Forall_forall in Hall. exact (Hall (k, name) H).
Qed.

(** The keys of the source's table are pairwise different, so that no entry
    hides another. *)
Lemma MARKET_KEY_items_NoDup : NoDup MARKET_KEY_items.*1.
Proof. apply (bool_decide_unpack _). vm_compute. exact I. Qed.

Lemma MARKET_KEY_lookup k name :
  MARKET_KEY !! k = Some name <-> (k, name) ∈ MARKET_KEY_items.
Proof. symmetry. apply elem_of_list_to_map, MARKET_KEY_items_NoDup. Qed.

(** C1. For a string whose first four characters are a key of the market
    table, [get_market_from_cer] returns the name the table maps the key to;
    in particular every string that starts with 5510 is in East Texas.  For a
    string whose first four characters are not a key, for a string of fewer
    than four characters and for a value that is not a string it returns
    [No Match]. *)
Theorem get_market_from_cer_spec :
  (forall k rest name,
      MARKET_KEY !! k = Some name ->
      get_market_from_cer (PStr (k ++ rest)) = name)
  /\ (forall rest, get_market_from_cer (PStr ("5510" ++ rest)) = "East Texas")
  /\ (forall k rest,
        String.length k = 4%nat -> MARKET_KEY !! k = None ->
        get_market_from_cer (PStr (k ++ rest)) = NO_MATCH)
  /\ (forall s, (String.length s < 4)%nat -> get_market_from_cer (PStr s) = NO_MATCH)
  /\ (forall v, (forall s, v <> PStr s) -> get_market_from_cer v = NO_MATCH).
Proof.
  assert (forall k rest, String.length k = 4%nat ->
            get_market_from_cer (PStr (k ++ rest))
            = default NO_MATCH (MARKET_KEY !! k)) as Hkey.
  { intros k rest Hk. unfold get_market_from_cer.
    rewrite PyStrFacts.slice_prefix4 by done.
    rewrite PyStrFacts.len_app. unfold PyStr.len at 1. rewrite Hk.
    pose proof (PyStrFacts.len_nonneg rest).
    by destruct (Z.leb_spec 4 (Z.of_nat 4 + PyStr.len rest)); [|lia]. }
  repeat split.
  - intros k rest name Hname.
    rewrite Hkey by eauto using MARKET_KEY_key_length. by rewrite Hname.
  - intros rest. by rewrite Hkey.
  - intros k rest Hk Hnone. rewrite Hkey by done. by rewrite Hnone.
  - intros s Hs. unfold get_market_from_cer, PyStr.len.
    by destruct (Z.leb_spec 4 (Z.of_nat (String.length s))); [lia|].
  - intros v Hv. destruct v; try done. by destruct (Hv s).
Qed.

(** The theorem at the request number of the specification's example, at a
    prefix outside the table, at a short string and at a number. *)
Lemma get_market_from_cer_spec_witness :
  MARKET_KEY !! "5510" = Some "East Texas"
  /\ get_market_from_cer (PStr "5510-001") = "East Texas"
  /\ MARKET_KEY !! "9999" = None
  /\ get_market_from_cer (PStr "9999-001") = "No Match"
  /\ get_market_from_cer (PStr "551") = "No Match"
  /\ get_market_from_cer (PInt 5510) = "No Match".
Proof.
  destruct get_market_from_cer_spec as (Hkey & _ & Hother & Hshort & Hnostr).
  split; [reflexivity|]. split; [exact (Hkey "5510" "-001" _ eq_refl)|].
  split; [reflexivity|]. split; [exact (Hother "9999" "-001" eq_refl eq_refl)|].
  split; [apply Hshort; simpl; lia|].
  apply Hnostr. intros s; discriminate.
Defined.

(** ** The JSON cleaner *)

Module CleanFacts.
Import PyStr PyStrFacts.

Lemma app_assoc s t u : (s ++ t) ++ u = s ++ t ++ u.
Proof. induction s as [|a s IH]; [done|]. by rewrite !app_cons, IH. Qed.

Lemma substring_len0 n s : String.substring n 0 s = "".
Proof. revert n. induction s as [|a s IH]; intros [|n]; simpl; auto. Qed.

(** Where the text holds an opening brace and, after it, a closing one,
    the result runs from the first opening to the last closing brace. *)
Lemma clean_json_response_found pre mid post :
  occurs "{" pre = false -> occurs "}" post = false ->
  clean_json_response (pre ++ "{" ++ mid ++ "}" ++ post) = "{" ++ mid ++ "}".
Proof.
  intros Hpre Hpost.
  assert (find "{" (pre ++ "{" ++ mid ++ "}" ++ post) = len pre) as Hf
    by exact (find_first "{" pre (mid ++ "}" ++ post) Hpre).
  assert (rfind "}" (pre ++ "{" ++ mid ++ "}" ++ post) + 1
          = len pre + len ("{" ++ mid ++ "}")) as Hr.
  { replace (pre ++ "{" ++ mid ++ "}" ++ post)
      with ((pre ++ "{" ++ mid) ++ String "}" post)
      by (by rewrite !app_assoc).
    rewrite rfind_last by done. rewrite !len_app. unfold len. simpl. lia. }
  unfold clean_json_response. rewrite Hf, Hr.
  replace (pre ++ "{" ++ mid ++ "}" ++ post)
    with (pre ++ ("{" ++ mid ++ "}") ++ post)
    by (by rewrite !app_assoc).
  by rewrite slice_middle.
Qed.

(** Where the text holds neither brace, the result is the empty object. *)
Lemma clean_json_response_no_brace text :
  occurs "{" text = false -> occurs "}" text = false ->
  clean_json_response text = "{}".
Proof.
  intros Ho Hc. unfold clean_json_response.
  rewrite find_absent, rfind_absent by done.
  unfold slice, adjust. change (-1 + 1) with 0.
  change (-1 <? 0) with true. change (0 <? 0) with false. cbv iota.
  pose proof (len_nonneg text).
  rewrite (Z.min_l 0) by lia.
  replace (Z.to_nat (0 - Z.max 0 (-1 + len text))) with 0%nat by lia.
  by rewrite substring_len0.
Qed.

(** Where the text holds no opening brace and ends with a closing one,
    the result is that closing brace: [find] answers [-1], which as the
    start of a slice is the last character. *)
Lemma clean_json_response_dangling pre :
  occurs "{" pre = false -> clean_json_response (pre ++ "}") = "}".
Proof.
  intros Hpre. unfold clean_json_response.
  rewrite find_absent by (by rewrite occurs_app, Hpre).
  rewrite (rfind_last "}" pre "") by done.
  unfold slice, adjust. rewrite len_app. change (len "}") with 1.
  pose proof (len_nonneg pre).
  change (-1 <? 0) with true. cbv iota.
  destruct (Z.ltb_spec (len pre + 1) 0); [lia|].
  rewrite Z.max_r, Z.min_l by lia.
  replace (Z.to_nat (len pre + 1 - (-1 + (len pre + 1)))) with 1%nat by lia.
  replace (Z.to_nat (-1 + (len pre + 1))) with (String.length pre)
    by (unfold len; lia).
  by rewrite substring_app_skip.
Qed.

End CleanFacts.

(** C7. On a text without an opening brace that ends with a closing brace,
    [clean_json_response] returns that closing brace and not the empty
    object: so it does on the one-character text of a closing brace. *)
Theorem clean_json_response_dangling_brace :
  (forall pre,
      PyStr.occurs "{" pre = false ->
      clean_json_response (pre ++ "}") = "}")
  /\ PyStr.find "{" "}" = -1
  /\ clean_json_response "}" = "}"
  /\ clean_json_response "}" <> "{}".
Proof.
  split; [exact CleanFacts.clean_json_response_dangling|].
  repeat split; try reflexivity. discriminate.
Qed.

(** The theorem on a reply that ends with a stray closing brace; a reply
    that holds an object is cleaned to the object. *)
Lemma clean_json_response_dangling_brace_witness :
  PyStr.occurs "{" "no fields found" = false
  /\ clean_json_response "no fields found}" = "}"
  /\ clean_json_response "reply: {x} end" = "{x}".
Proof.
  split; [reflexivity|]. split; [|reflexivity].
  exact (proj1 clean_json_response_dangling_brace "no fields found" eq_refl).
Defined.

(** ** The date normalizer *)

Module DateFacts.
Import PyStr PyStrFacts.











End DateFacts.

Section FormatDateFacts.

Variable parse : string -> result datetime.

(** The three ways through [format_date_string] on a string. *)
Lemma format_date_string_empty :
  format_date_string parse (PStr "") = Ok (PStr "").
Proof. reflexivity. Qed.


Lemma format_date_string_raised s e :
  s <> "" -> parse (PyStr.strip s) = Raise e ->
  format_date_string parse (PStr s)
  = if is_value_or_type_error e then Ok (PStr s) else Raise e.
Proof.
  intros Hs He. unfold format_date_string. destruct s; [done|]. simpl.
  by rewrite He.
Qed.

(** C2, amended. For every string on which [parse] raises a [ValueError]
    (as [dateutil] does for text it cannot read) or a [TypeError],
    [format_date_string] returns the string it was given, unchanged, and
    raises nothing. *)
Theorem format_date_string_unparseable s e :
  parse (PyStr.strip s) = Raise e ->
  is_value_or_type_error e = true ->
  format_date_string parse (PStr s) = Ok (PStr s).
Proof.
  intros He Hcls. destruct (decide (s = "")) as [->|Hs]; [done|].
  by rewrite (format_date_string_raised s e), Hcls.
Qed.

(** An exception of any other class leaves the function. *)
Lemma format_date_string_propagates s e :
  s <> "" -> parse (PyStr.strip s) = Raise e ->
  is_value_or_type_error e = false ->
  format_date_string parse (PStr s) = Raise e.
Proof.
  intros Hs He Hcls. by rewrite (format_date_string_raised s e), Hcls.
Qed.

(** A value that is true and is not a string has no [strip]. *)
Lemma format_date_string_not_str v :
  truthy v = true -> (forall s, v <> PStr s) ->
  exists e, format_date_string parse v = Raise e /\ exn_cls e = AttributeError.
Proof.
  intros Hv Hns. unfold format_date_string. rewrite Hv. simpl.
  destruct v; try (eexists; split; [reflexivity|done]).
  by destruct (Hns s).
Qed.

Lemma format_date_string_falsy v :
  truthy v = false -> format_date_string parse v = Ok (PStr "").
Proof. intros Hv. unfold format_date_string. by rewrite Hv. Qed.


End FormatDateFacts.

(** The theorem on text without a date, which [dateutil] rejects with a
    [ParserError]. *)
Lemma format_date_string_unparseable_witness :
  Sample.parse_table (PyStr.strip " next week ")
  = Raise (Exn ValueError "String does not contain a date: next week")
  /\ format_date_string Sample.parse_table (PStr " next week ") = Ok (PStr " next week ").
Proof.
  split; [reflexivity|].
  exact (format_date_string_unparseable Sample.parse_table " next week " _
           eq_refl eq_refl).
Defined.

(** C2 as stated fails: when [parse] fails with an [OverflowError], which
    [except (ValueError, TypeError)] does not name, the exception leaves
    [format_date_string]. *)
Lemma format_date_string_overflow_escapes :
  Sample.parse_table (PyStr.strip "08335394550")
  = Raise (Exn OverflowError "signed integer is greater than maximum")
  /\ format_date_string Sample.parse_table (PStr "08335394550")
     = Raise (Exn OverflowError "signed integer is greater than maximum")
  /\ format_date_string Sample.parse_table (PStr "08335394550")
     <> Ok (PStr "08335394550").
Proof. repeat split; try reflexivity. discriminate. Qed.



(** ** The monad and the trace *)

Lemma log_nil s : log s [] = s.
Proof. destruct s. unfold log. simpl. by rewrite app_nil_r. Qed.

Lemma log_log s evs1 evs2 : log (log s evs1) evs2 = log s (evs1 ++ evs2).
Proof. unfold log. simpl. by rewrite app_assoc. Qed.

Lemma emit_run ev s : emit ev s = (Ok (), log s [ev]).
Proof. reflexivity. Qed.

Lemma print_run l s : print l s = (Ok (), log s [Printed l]).
Proof. reflexivity. Qed.

Lemma bind_run_ok {A B} (m : M A) (f : A -> M B) s a s' :
  m s = (Ok a, s') -> (m ≫= f) s = f a s'.
Proof. intros H. unfold mbind, M_bind. by rewrite H. Qed.

Lemma bind_run_raise {A B} (m : M A) (f : A -> M B) s e s' :
  m s = (Raise e, s') -> (m ≫= f) s = (Raise e, s').
Proof. intros H. unfold mbind, M_bind. by rewrite H. Qed.

Lemma try_run_ok {A} (m : M A) h s a s' :
  m s = (Ok a, s') -> try_except m h s = (Ok a, s').
Proof. intros H. unfold try_except. by rewrite H. Qed.

Lemma try_run_raise {A} (m : M A) h s e s' :
  m s = (Raise e, s') -> try_except m h s = h e s'.
Proof. intros H. unfold try_except. by rewrite H. Qed.

(** Quiet computations are closed under the operations of the monad. *)
Lemma quiet_ret {A} (a : A) : runs_quietly (mret a : M A).
Proof. intros s. exists (Ok a), []. by rewrite log_nil. Qed.

Lemma quiet_raise {A} e : runs_quietly (raise e : M A).
Proof. intros s. exists (Raise e), []. by rewrite log_nil. Qed.

Lemma quiet_lift {A} (r : result A) : runs_quietly (lift r).
Proof. intros s. exists r, []. by rewrite log_nil. Qed.

Lemma quiet_lift_check o : runs_quietly (lift_check o).
Proof. destruct o; [apply quiet_raise | apply quiet_ret]. Qed.

Lemma quiet_emit ev : quiet ev = true -> runs_quietly (emit ev).
Proof. intros H s. exists (Ok ()), [ev]. simpl. by rewrite H. Qed.

Lemma quiet_print l : runs_quietly (print l).
Proof. by apply quiet_emit. Qed.

Lemma quiet_bind {A B} (m : M A) (f : A -> M B) :
  runs_quietly m -> (forall a, runs_quietly (f a)) -> runs_quietly (m ≫= f).
Proof.
  intros Hm Hf s. destruct (Hm s) as ([a|e] & evs & Hrun & Hq).
  - destruct (Hf a (log s evs)) as (r & evs' & Hrun' & Hq').
    exists r, (evs ++ evs')%list. rewrite (bind_run_ok _ _ _ _ _ Hrun), Hrun', log_log.
    by rewrite forallb_app, Hq, Hq'.
  - exists (Raise e), evs. by rewrite (bind_run_raise _ _ _ _ _ Hrun).
Qed.

Lemma quiet_try {A} (m : M A) h :
  runs_quietly m -> (forall e, runs_quietly (h e)) -> runs_quietly (try_except m h).
Proof.
  intros Hm Hh s. destruct (Hm s) as ([a|e] & evs & Hrun & Hq).
  - exists (Ok a), evs. by rewrite (try_run_ok _ _ _ _ _ Hrun).
  - destruct (Hh e (log s evs)) as (r & evs' & Hrun' & Hq').
    exists r, (evs ++ evs')%list. rewrite (try_run_raise _ _ _ _ _ Hrun), Hrun', log_log.
    by rewrite forallb_app, Hq, Hq'.
Qed.

Create HintDb quiet.
#[global] Hint Resolve quiet_ret quiet_raise quiet_lift quiet_lift_check
  quiet_print quiet_bind quiet_try : quiet.

(** ** The spreadsheet writer *)

(** [update_google_sheet] returns normally from every state: whatever is
    raised inside it is caught and printed. *)
Lemma update_google_sheet_total sv data s :
  exists s', update_google_sheet sv data s = (Ok (), s').
Proof.
  unfold update_google_sheet, try_except.
  destruct (update_google_sheet_try sv data s) as [[[]|e] s1]; eauto.
Qed.

(** When the body of its [try] raises, the exception is printed and the
    state is otherwise the one the body left. *)
Lemma update_google_sheet_caught sv data s e s1 :
  update_google_sheet_try sv data s = (Raise e, s1) ->
  update_google_sheet sv data s = (Ok (), log s1 [Printed (LogSheetError e)]).
Proof. intros H. unfold update_google_sheet, try_except. by rewrite H. Qed.

(** ** The webhook *)

Section HandlerFacts.

Variable sv : services.

(** The extraction client touches no spreadsheet. *)
Lemma GeminiProcessor_init_quiet : runs_quietly (GeminiProcessor_init sv).
Proof.
  unfold GeminiProcessor_init. apply quiet_try; [|auto with quiet].
  destruct (negb _); auto with quiet.
Qed.

Lemma extract_data_from_email_quiet email_body :
  runs_quietly (extract_data_from_email sv email_body).
Proof.
  unfold extract_data_from_email. apply quiet_try; [|auto with quiet].
  apply quiet_bind; [by apply quiet_emit|]. auto with quiet.
Qed.

(** The three ways out of the [try] of [handle_email]: an exception, the
    answer 400 for a missing request number, or the spreadsheet writer
    called and the answer 200.  Before the writer is entered nothing
    touches the spreadsheets. *)
Lemma handle_email_try_cases email_body email_from s :
  (exists e evs,
      handle_email_try sv email_body email_from s = (Raise e, log s evs)
      /\ forallb quiet evs = true)
  \/ (exists evs,
        handle_email_try sv email_body email_from s
        = (Ok (Response "Failed: Could not extract CER#." 400), log s evs)
        /\ forallb quiet evs = true)
  \/ (exists evs data s',
        handle_email_try sv email_body email_from s
        = (Ok (Response (CHECK_MARK ++ " Success: Email processed and sheet updated.") 200), s')
        /\ update_google_sheet sv data (log s (evs ++ [Entered SheetWriter])%list) = (Ok (), s')
        /\ forallb quiet evs = true).
Proof.
  unfold handle_email_try.
  rewrite (bind_run_ok _ _ _ _ _ (emit_run _ s)).
  destruct (GeminiProcessor_init_quiet (log s [Entered ExtractionClient]))
    as ([[]|e] & evs1 & Hrun1 & Hq1); rewrite log_log in Hrun1.
  2:{ rewrite (bind_run_raise _ _ _ _ _ Hrun1). left. exists e. eexists.
      split; [done|]. done. }
  rewrite (bind_run_ok _ _ _ _ _ Hrun1).
  destruct (extract_data_from_email_quiet email_body
              (log s ([Entered ExtractionClient] ++ evs1)%list))
    as ([v|e] & evs2 & Hrun2 & Hq2); rewrite log_log in Hrun2.
  2:{ rewrite (bind_run_raise _ _ _ _ _ Hrun2). left. exists e. eexists.
      split; [done|]. simpl. by rewrite forallb_app, Hq1, Hq2. }
  rewrite (bind_run_ok _ _ _ _ _ Hrun2).
  set (evs := (([Entered ExtractionClient] ++ evs1) ++ evs2)%list).
  assert (forallb quiet evs = true) as Hq
    by (unfold evs; simpl; by rewrite forallb_app, Hq1, Hq2).
  clearbody evs. clear Hrun1 Hrun2 Hq1 Hq2 evs1 evs2.
  destruct (as_dict v) as [d|e] eqn:Hd.
  2:{ left. exists e, evs. split; [|done].
      unfold mbind, M_bind, lift. done. }
  rewrite (bind_run_ok (lift (Ok d)) _ _ d (log s evs)) by done.
  cbv zeta.
  destruct (negb (PyStr.truthy (py_str sv (dict_get d "Ardent CER#" (PStr ""))))).
  { right; left. exists (evs ++ [Printed LogNoCer])%list. split.
    - rewrite (bind_run_ok _ _ _ _ _ (print_run _ _)). by rewrite log_log.
    - by rewrite forallb_app, Hq. }
  rewrite (bind_run_ok _ _ _ _ _ (emit_run _ _)), log_log.
  destruct (format_date_string (parse sv) (dict_get d "Forwarded Date" PNone))
    as [date|e] eqn:Hdate.
  2:{ left. exists e, (evs ++ [Entered DateNormalizer])%list. split.
      - unfold mbind, M_bind, lift. done.
      - by rewrite forallb_app, Hq. }
  rewrite (bind_run_ok (lift (Ok date)) _ _ date _) by done.
  rewrite (bind_run_ok _ _ _ _ _ (emit_run _ _)), log_log.
  rewrite (bind_run_ok _ _ _ _ _ (emit_run _ _)), log_log.
  match goal with
  | |- context [update_google_sheet sv ?data] =>
      destruct (update_google_sheet_total sv data
                  (log s (((evs ++ [Entered DateNormalizer]) ++ [Entered Classifier])
                          ++ [Entered SheetWriter])%list)) as (s' & Hs');
      right; right;
      exists ((evs ++ [Entered DateNormalizer]) ++ [Entered Classifier])%list, data, s'
  end.
  split; [by rewrite (bind_run_ok _ _ _ _ _ Hs')|].
  split; [done|]. by rewrite !forallb_app, Hq.
Qed.

(** [handle_email] never raises, and it has four ways out. *)
Lemma handle_email_cases form s :
  (from_option PyStr.truthy false (form !! "text") = false
   /\ handle_email sv form s
      = (Ok (Response "Failed: No email body content." 400),
         log s [Printed LogWebhookReceived]))
  \/ (exists e evs,
        handle_email sv form s
        = (Ok (Response ("Internal server error: " ++ exn_msg e) 500), log s evs)
        /\ forallb quiet evs = true)
  \/ (exists evs,
        handle_email sv form s
        = (Ok (Response "Failed: Could not extract CER#." 400), log s evs)
        /\ forallb quiet evs = true)
  \/ (exists evs data s',
        handle_email sv form s
        = (Ok (Response (CHECK_MARK ++ " Success: Email processed and sheet updated.") 200), s')
        /\ update_google_sheet sv data (log s (evs ++ [Entered SheetWriter])%list)
           = (Ok (), s')
        /\ forallb quiet evs = true).
Proof.
  unfold handle_email.
  rewrite (bind_run_ok _ _ _ _ _ (print_run _ s)). cbv zeta.
  destruct (from_option PyStr.truthy false (form !! "text")) eqn:Hbody.
  2:{ left. split; [done|]. reflexivity. }
  right. change (negb true) with false. cbv iota.
  destruct (handle_email_try_cases (default "" (form !! "text"))
              (form_get form "from") (log s [Printed LogWebhookReceived]))
    as [(e & evs & Hrun & Hq)|[(evs & Hrun & Hq)|(evs & data & s' & Hrun & Hup & Hq)]];
    rewrite ?log_log in *.
  - left. exists e, ([Printed LogWebhookReceived] ++ evs ++ [Printed (LogCriticalError e)])%list.
    split.
    + rewrite (try_run_raise _ _ _ _ _ Hrun).
      rewrite (bind_run_ok _ _ _ _ _ (print_run _ _)). rewrite log_log.
      by rewrite <- app_assoc.
    + simpl. by rewrite forallb_app, Hq.
  - right; left. exists ([Printed LogWebhookReceived] ++ evs)%list. split.
    + by rewrite (try_run_ok _ _ _ _ _ Hrun).
    + done.
  - right; right. exists ([Printed LogWebhookReceived] ++ evs)%list, data, s'.
    split; [by rewrite (try_run_ok _ _ _ _ _ Hrun)|].
    split; [by rewrite <- app_assoc|]. done.
Qed.

End HandlerFacts.

Lemma quiet_spec ev :
  quiet ev = true <-> ev <> Entered SheetWriter /\ forall c, ev <> Remote c.
Proof.
  split.
  - intros H. split; [|intros c]; intros ->; discriminate.
  - intros [H1 H2]. destruct ev as [| [] | |c]; try done. by destruct (H2 c).
Qed.

Lemma log_inj s evs1 evs2 : log s evs1 = log s evs2 -> evs1 = evs2.
Proof. unfold log. intros [= H]. by apply app_inv_head in H. Qed.

Lemma forallb_quiet_Forall evs :
  forallb quiet evs = true ->
  Forall (fun ev => ev <> Entered SheetWriter /\ forall c, ev <> Remote c) evs.
Proof.
  induction evs as [|ev evs IH]; simpl; [constructor|].
  intros [Hev Hevs]%andb_true_iff. constructor; [by apply quiet_spec|auto].
Qed.

(** A quiet computation leaves the spreadsheets and the schedule alone. *)
Lemma quiet_run_state {A} (m : M A) s r s' :
  runs_quietly m -> m s = (r, s') ->
  st_drive s' = st_drive s /\ st_faults s' = st_faults s.
Proof.
  intros Hq Hrun. destruct (Hq s) as (r0 & evs & Hrun0 & _).
  rewrite Hrun in Hrun0. by injection Hrun0 as -> ->.
Qed.

(** The columns of [row_to_add] are the fields named by the header, in the
    order of the header. *)
Lemma row_to_add_header (data : gmap string pyval) market :
  data !! "Market" = Some market ->
  row_to_add data market = (fun k => dict_get data k (PStr "")) <$> HEADER.
Proof. intros H. unfold row_to_add, dict_get. simpl. by rewrite H. Qed.

(** ** A spreadsheet write that goes through *)

Section SheetRuns.

Variable sv : services.

(** A request goes through when no failure is scheduled. *)
Lemma remote_run c drv tr :
  remote c (State drv [] tr) = (Ok (), State drv [] (tr ++ [Remote c])).
Proof. reflexivity. Qed.

Lemma get_gspread_client_run drv tr :
  credentials_accepted sv ->
  get_gspread_client sv (State drv [] tr)
  = (Ok (), State drv [] (tr ++ [Remote ApiAuthorize])).
Proof.
  intros (creds_json & creds_dict & Henv & Hne & Hjson & Hcreds).
  unfold get_gspread_client. rewrite Henv. cbn [from_option id].
  rewrite (PyStrFacts.truthy_nonempty _ Hne). change (negb true) with false. cbv iota.
  unfold mbind, M_bind, lift, lift_check.
  by rewrite Hjson, Hcreds.
Qed.

Lemma client_open_run name sheet (drv : gmap string (gmap string (list (list pyval)))) tr :
  drv !! name = Some sheet ->
  client_open name (State drv [] tr)
  = (Ok name, State drv [] (tr ++ [Remote (ApiOpen name)])).
Proof.
  intros Hsheet. unfold client_open, mbind, M_bind, get_drive.
  rewrite remote_run. simpl. by rewrite Hsheet.
Qed.

Lemma spreadsheet_worksheet_run name sheet m
    (drv : gmap string (gmap string (list (list pyval)))) tr :
  drv !! name = Some sheet ->
  spreadsheet_worksheet sv name (PStr m) (State drv [] tr)
  = (match sheet !! m with
     | Some _ => Ok m
     | None => Raise (Exn WorksheetNotFound m)
     end,
     State drv [] (tr ++ [Remote (ApiWorksheet (PStr m))])).
Proof.
  intros Hsheet. unfold spreadsheet_worksheet, mbind, M_bind, get_drive.
  rewrite remote_run. simpl. rewrite Hsheet. simpl.
  by destruct (sheet !! m).
Qed.

Lemma spreadsheet_add_worksheet_run name (sheet : gmap string (list (list pyval))) m
    (drv : gmap string (gmap string (list (list pyval)))) tr :
  drv !! name = Some sheet -> sheet !! m = None ->
  spreadsheet_add_worksheet sv name (PStr m) (State drv [] tr)
  = (Ok m, State (<[name := <[m := []]> sheet]> drv) []
                 (tr ++ [Remote (ApiAddWorksheet (PStr m))])).
Proof.
  intros Hsheet Htab. unfold spreadsheet_add_worksheet, mbind, M_bind, get_drive.
  rewrite remote_run. simpl. by rewrite Hsheet, Htab.
Qed.

Lemma worksheet_append_row_run name (sheet : gmap string (list (list pyval))) t ws r
    (drv : gmap string (gmap string (list (list pyval)))) tr :
  drv !! name = Some sheet -> sheet !! t = Some ws ->
  worksheet_append_row name t r (State drv [] tr)
  = (Ok (), State (<[name := <[t := (ws ++ [r])%list]> sheet]> drv) []
                  (tr ++ [Remote (ApiAppendRow t r)])).
Proof.
  intros Hsheet Htab. unfold worksheet_append_row, mbind, M_bind, get_drive.
  rewrite remote_run. simpl. rewrite Hsheet. simpl. by rewrite Htab.
Qed.

(** With the client built, no failure scheduled and the spreadsheet on the
    drive, [update_google_sheet] appends [row_to_add] to the tab of the
    market, after the header when the tab is new. *)
Lemma update_google_sheet_writes data s sheet m :
  credentials_accepted sv ->
  st_faults s = [] ->
  st_drive s !! sheet_name sv = Some sheet ->
  data !! "Market" = Some (PStr m) ->
  exists s',
    update_google_sheet sv data s = (Ok (), s')
    /\ st_drive s'
       = <[sheet_name sv :=
             <[m := (default [PStr <$> HEADER] (sheet !! m)
                     ++ [row_to_add data (PStr m)])%list]> sheet]> (st_drive s).
Proof.
  intros Hcreds Hfaults Hsheet Hmarket.
  destruct s as [drv faults tr]. simpl in Hfaults, Hsheet. subst faults. simpl st_drive.
  set (r := row_to_add data (PStr m)).
  cut (exists tr',
         update_google_sheet_try sv data (State drv [] tr)
         = (Ok (), State
              (<[sheet_name sv :=
                   <[m := (default [PStr <$> HEADER] (sheet !! m) ++ [r])%list]> sheet]> drv)
              [] tr')).
  { intros (tr' & Htry). eexists. split.
    - unfold update_google_sheet. by rewrite (try_run_ok _ _ _ _ _ Htry).
    - reflexivity. }
  unfold update_google_sheet_try. fold (sheet_name sv).
  assert (dict_get data "Market" (PStr "Unknown") = PStr m) as ->
    by (unfold dict_get; by rewrite Hmarket).
  fold r.
  rewrite (bind_run_ok _ _ _ _ _ (print_run _ _)). unfold log; cbn [st_drive st_faults st_trace].
  rewrite (bind_run_ok _ _ _ _ _ (get_gspread_client_run _ _ Hcreds)).
  rewrite (bind_run_ok _ _ _ _ _ (print_run _ _)). unfold log; cbn [st_drive st_faults st_trace].
  rewrite (bind_run_ok _ _ _ _ _ (print_run _ _)). unfold log; cbn [st_drive st_faults st_trace].
  rewrite (bind_run_ok _ _ _ _ _ (client_open_run _ _ _ _ Hsheet)).
  rewrite (bind_run_ok _ _ _ _ _ (print_run _ _)). unfold log; cbn [st_drive st_faults st_trace].
  rewrite (bind_run_ok _ _ _ _ _ (print_run _ _)). unfold log; cbn [st_drive st_faults st_trace].
  match goal with
  | |- context [State drv [] ?t0] => generalize t0
  end.
  intros tr0.
  pose proof (spreadsheet_worksheet_run (sheet_name sv) sheet m drv tr0 Hsheet) as Hws.
  destruct (sheet !! m) as [ws|] eqn:Htab; cbn [from_option id].
  - rewrite (bind_run_ok _ _ _ m
               (State drv [] ((tr0 ++ [Remote (ApiWorksheet (PStr m))])
                              ++ [Printed (LogFoundTab (PStr m))]))).
    2:{ apply try_run_ok. rewrite (bind_run_ok _ _ _ _ _ Hws).
        by rewrite (bind_run_ok _ _ _ _ _ (print_run _ _)). }
    rewrite (bind_run_ok _ _ _ _ _ (print_run _ _)). unfold log; cbn [st_drive st_faults st_trace].
    rewrite (bind_run_ok _ _ _ _ _
               (worksheet_append_row_run _ _ _ _ _ _ _ Hsheet Htab)).
    rewrite print_run. unfold log; cbn [st_drive st_faults st_trace]. by eexists.
  - rewrite (bind_run_ok _ _ _ m
               (State (<[sheet_name sv := <[m := [PStr <$> HEADER]]> sheet]> drv) []
                  (((((tr0 ++ [Remote (ApiWorksheet (PStr m))])
                      ++ [Printed (LogCreatingTab (PStr m))])
                     ++ [Remote (ApiAddWorksheet (PStr m))])
                    ++ [Remote (ApiAppendRow m (PStr <$> HEADER))])
                   ++ [Printed LogHeaderAdded]))).
    2:{ rewrite (try_run_raise _ _ _ _ _ (bind_run_raise _ _ _ _ _ Hws)).
        rewrite bool_decide_eq_true_2 by done.
        rewrite (bind_run_ok _ _ _ _ _ (print_run _ _)). unfold log; cbn [st_drive st_faults st_trace].
        rewrite (bind_run_ok _ _ _ _ _
                   (spreadsheet_add_worksheet_run _ _ _ _ _ Hsheet Htab)).
        rewrite (bind_run_ok _ _ _ _ _
                   (worksheet_append_row_run (sheet_name sv) (<[m := []]> sheet) m []
                      (PStr <$> HEADER) _ _
                      (lookup_insert_eq _ _ _) (lookup_insert_eq _ _ _))).
        rewrite (bind_run_ok _ _ _ _ _ (print_run _ _)). unfold log; cbn [st_drive st_faults st_trace].
        by rewrite !insert_insert_eq. }
    rewrite (bind_run_ok _ _ _ _ _ (print_run _ _)). unfold log; cbn [st_drive st_faults st_trace].
    rewrite (bind_run_ok _ _ _ _ _
               (worksheet_append_row_run (sheet_name sv)
                  (<[m := [PStr <$> HEADER]]> sheet) m [PStr <$> HEADER] r _ _
                  (lookup_insert_eq _ _ _) (lookup_insert_eq _ _ _))).
    rewrite print_run. unfold log; cbn [st_drive st_faults st_trace].
    rewrite !insert_insert_eq. by eexists.
Qed.

End SheetRuns.

Section HandlerRuns.

Variable sv : services.

(** [GeminiProcessor()] without a key in the environment. *)
Lemma GeminiProcessor_init_no_key s :
  from_option PyStr.truthy false (getenv sv "GEMINI_API_KEY") = false ->
  let e := Exn ValueError "GEMINI_API_KEY not found in environment variables." in
  GeminiProcessor_init sv s = (Raise e, log s [Printed (LogApiConfigError e)]).
Proof.
  intros Hkey e. unfold GeminiProcessor_init. rewrite Hkey. reflexivity.
Qed.

(** [extract_data_from_email] sends one prompt and wraps whatever is
    raised by the service or by [json.loads] into a [ValueError]. *)
Lemma extract_data_from_email_run email_body s :
  let wrap e :=
    Exn ValueError ("Gemini API call or JSON parsing failed: " ++ exn_msg e) in
  extract_data_from_email sv email_body s
  = (match generate_content sv (PROMPT ++ email_body) with
     | Ok text =>
         match json_loads sv (clean_json_response text) with
         | Ok v => Ok v
         | Raise e => Raise (wrap e)
         end
     | Raise e => Raise (wrap e)
     end,
     log s [Generate (PROMPT ++ email_body)]).
Proof.
  intros wrap. unfold extract_data_from_email, try_except, mbind, M_bind, lift.
  rewrite emit_run.
  destruct (generate_content sv (PROMPT ++ email_body)) as [text|e]; [|done].
  by destruct (json_loads sv (clean_json_response text)).
Qed.

(** [handle_email] once the body is there: the [try] and its handler. *)
Lemma handle_email_with_body form s email_body :
  form !! "text" = Some email_body -> email_body <> "" ->
  handle_email sv form s
  = try_except
      (handle_email_try sv email_body (form_get form "from"))
      (fun e =>
         print (LogCriticalError e);;
         mret (Response ("Internal server error: " ++ exn_msg e) 500))
      (log s [Printed LogWebhookReceived]).
Proof.
  intros Hbody Hne. unfold handle_email.
  rewrite (bind_run_ok _ _ _ _ _ (print_run _ s)). cbv zeta.
  rewrite Hbody. simpl. by rewrite (PyStrFacts.truthy_nonempty _ Hne).
Qed.

(** The [try] of [handle_email] after a successful extraction. *)
Lemma handle_email_try_extracted email_body email_from s s1 d s2 :
  GeminiProcessor_init sv (log s [Entered ExtractionClient]) = (Ok (), s1) ->
  extract_data_from_email sv email_body s1 = (Ok (PDict d), s2) ->
  let cer_number := py_str sv (dict_get d "Ardent CER#" (PStr "")) in
  handle_email_try sv email_body email_from s
  = if negb (PyStr.truthy cer_number)
    then (Ok (Response "Failed: Could not extract CER#." 400), log s2 [Printed LogNoCer])
    else
      match format_date_string (parse sv) (dict_get d "Forwarded Date" PNone) with
      | Raise e => (Raise e, log s2 [Entered DateNormalizer])
      | Ok date =>
          (Ok (Response (CHECK_MARK ++ " Success: Email processed and sheet updated.") 200),
           snd (update_google_sheet sv
                  (<["Source Email" := email_from]>
                     (<["Market" := PStr (get_market_from_cer (PStr cer_number))]>
                        (<["Forwarded Date" := date]> d)))
                  (log s2 [Entered DateNormalizer; Entered Classifier;
                           Entered SheetWriter])))
      end.
Proof.
  intros Hinit Hextract cer_number. unfold handle_email_try.
  rewrite (bind_run_ok _ _ _ _ _ (emit_run _ s)).
  rewrite (bind_run_ok _ _ _ _ _ Hinit).
  rewrite (bind_run_ok _ _ _ _ _ Hextract).
  rewrite (bind_run_ok (lift (as_dict (PDict d))) _ _ d s2) by done.
  cbv zeta. fold cer_number.
  destruct (negb (PyStr.truthy cer_number)).
  { by rewrite (bind_run_ok _ _ _ _ _ (print_run _ _)). }
  rewrite (bind_run_ok _ _ _ _ _ (emit_run _ _)).
  destruct (format_date_string (parse sv) (dict_get d "Forwarded Date" PNone))
    as [date|e].
  2:{ by rewrite (bind_run_raise (lift (Raise e)) _ _ e (log s2 [Entered DateNormalizer])). }
  rewrite (bind_run_ok (lift (Ok date)) _ _ date _) by done.
  rewrite (bind_run_ok _ _ _ _ _ (emit_run _ _)), log_log.
  rewrite (bind_run_ok _ _ _ _ _ (emit_run _ _)), log_log.
  simpl app.
  match goal with
  | |- context [update_google_sheet sv ?data] =>
      destruct (update_google_sheet_total sv data
                  (log s2 [Entered DateNormalizer; Entered Classifier;
                           Entered SheetWriter])) as (s' & Hs')
  end.
  rewrite (bind_run_ok _ _ _ _ _ Hs'). by rewrite Hs'.
Qed.

(** An exception of [GeminiProcessor()] or of the extraction leaves the
    [try] as it is. *)
Lemma handle_email_try_init_raises email_body email_from s e s1 :
  GeminiProcessor_init sv (log s [Entered ExtractionClient]) = (Raise e, s1) ->
  handle_email_try sv email_body email_from s = (Raise e, s1).
Proof.
  intros H. unfold handle_email_try.
  rewrite (bind_run_ok _ _ _ _ _ (emit_run _ s)).
  by rewrite (bind_run_raise _ _ _ _ _ H).
Qed.

Lemma handle_email_try_extract_raises email_body email_from s s1 e s2 :
  GeminiProcessor_init sv (log s [Entered ExtractionClient]) = (Ok (), s1) ->
  extract_data_from_email sv email_body s1 = (Raise e, s2) ->
  handle_email_try sv email_body email_from s = (Raise e, s2).
Proof.
  intros Hinit H. unfold handle_email_try.
  rewrite (bind_run_ok _ _ _ _ _ (emit_run _ s)).
  rewrite (bind_run_ok _ _ _ _ _ Hinit).
  by rewrite (bind_run_raise _ _ _ _ _ H).
Qed.

End HandlerRuns.

(** [str(v)] is empty for the empty string only. *)
Lemma of_Z_nonempty z : PyStr.of_Z z <> "".
Proof.
  unfold PyStr.of_Z, NilZero.string_of_int, NilZero.string_of_uint.
  destruct (Z.to_int z) as [d|d]; [by destruct d|done].
Qed.

Lemma py_str_empty sv v : py_str sv v = "" <-> v = PStr "".
Proof.
  split; [|by intros ->].
  destruct v as [|[]|z|h t|s|l|d]; simpl; try done.
  - intros H. by destruct (of_Z_nonempty z).
  - by intros ->.
Qed.

Lemma cer_number_empty sv (d : gmap string pyval) :
  py_str sv (dict_get d "Ardent CER#" (PStr "")) = ""
  <-> d !! "Ardent CER#" = None \/ d !! "Ardent CER#" = Some (PStr "").
Proof.
  rewrite py_str_empty. unfold dict_get.
  destruct (d !! "Ardent CER#") as [v|]; simpl.
  - split; [intros ->; by right|]. by intros [|[= ->]].
  - split; auto.
Qed.

(** ** The webhook, claim by claim *)

(** C8. When the form has no [text] field, or an empty one, [handle_email]
    answers 400 and has done nothing but print that a request came in: no
    extraction, no classification, no call of the spreadsheet writer, and
    the spreadsheets are as they were. *)
Theorem handle_email_no_body sv form s :
  form !! "text" = None \/ form !! "text" = Some "" ->
  handle_email sv form s
  = (Ok (Response "Failed: No email body content." 400),
     log s [Printed LogWebhookReceived]).
Proof.
  intros Hbody. unfold handle_email.
  rewrite (bind_run_ok _ _ _ _ _ (print_run _ s)). cbv zeta.
  by destruct Hbody as [-> | ->].
Qed.

(** The theorem on a request without any field. *)
Lemma handle_email_no_body_witness :
  (∅ : gmap string string) !! "text" = None
  /\ handle_email Sample.good ∅ Sample.start
     = (Ok (Response "Failed: No email body content." 400),
        State Sample.DRIVE [] [Printed LogWebhookReceived]).
Proof.
  split; [reflexivity|].
  exact (handle_email_no_body Sample.good ∅ Sample.start (or_introl eq_refl)).
Defined.

(** C5. For a request with a body whose extraction succeeds with the
    record [d]: when the request number read from [d] is empty (the field is
    missing or is the empty string), [handle_email] answers 400 with the
    text of the extraction failure; when it is not empty, the answer is not
    400. *)
Theorem handle_email_empty_cer sv form s email_body s1 d s2 :
  form !! "text" = Some email_body -> email_body <> "" ->
  GeminiProcessor_init sv
    (log s [Printed LogWebhookReceived; Entered ExtractionClient]) = (Ok (), s1) ->
  extract_data_from_email sv email_body s1 = (Ok (PDict d), s2) ->
  let cer_number := py_str sv (dict_get d "Ardent CER#" (PStr "")) in
  (cer_number = "" <->
   d !! "Ardent CER#" = None \/ d !! "Ardent CER#" = Some (PStr ""))
  /\ (cer_number = "" ->
      handle_email sv form s
      = (Ok (Response "Failed: Could not extract CER#." 400),
         log s2 [Printed LogNoCer]))
  /\ (cer_number <> "" ->
      exists r s', handle_email sv form s = (Ok r, s') /\ status r <> 400).
Proof.
  intros Hbody Hne Hinit Hextract cer_number.
  split; [apply cer_number_empty|].
  rewrite (handle_email_with_body sv form s email_body Hbody Hne).
  pose proof (handle_email_try_extracted sv email_body (form_get form "from")
                (log s [Printed LogWebhookReceived]) s1 d s2) as Htry.
  rewrite log_log in Htry. specialize (Htry Hinit Hextract). cbv zeta in Htry.
  fold cer_number in Htry.
  split.
  - intros Hcer. rewrite Hcer in Htry.
    change (negb (PyStr.truthy "")) with true in Htry. cbv iota in Htry.
    by rewrite (try_run_ok _ _ _ _ _ Htry).
  - intros Hcer. rewrite (PyStrFacts.truthy_nonempty _ Hcer) in Htry.
    change (negb true) with false in Htry. cbv iota in Htry.
    destruct (format_date_string (parse sv) (dict_get d "Forwarded Date" PNone))
      as [date|e].
    + rewrite (try_run_ok _ _ _ _ _ Htry). by eexists _, _.
    + rewrite (try_run_raise _ _ _ _ _ Htry).
      rewrite (bind_run_ok _ _ _ _ _ (print_run _ _)). by eexists _, _.
Qed.

(** The theorem on a reply without a request number. *)
Lemma handle_email_empty_cer_witness :
  let s1 := log Sample.start [Printed LogWebhookReceived; Entered ExtractionClient] in
  let s2 := log s1 [Generate (PROMPT ++ Sample.BODY)] in
  extract_data_from_email Sample.no_cer Sample.BODY s1
  = (Ok (PDict {[ "Ardent CER#" := PStr "" ]}), s2)
  /\ handle_email Sample.no_cer Sample.FORM Sample.start
     = (Ok (Response "Failed: Could not extract CER#." 400), log s2 [Printed LogNoCer]).
Proof.
  intros s1 s2.
  assert (GeminiProcessor_init Sample.no_cer s1 = (Ok (), s1)) as Hinit
    by (vm_compute; reflexivity).
  assert (extract_data_from_email Sample.no_cer Sample.BODY s1
          = (Ok (PDict {[ "Ardent CER#" := PStr "" ]}), s2)) as Hextract
    by (vm_compute; reflexivity).
  split; [exact Hextract|].
  destruct (handle_email_empty_cer Sample.no_cer Sample.FORM Sample.start
              Sample.BODY s1 _ s2 eq_refl ltac:(discriminate) Hinit Hextract)
    as (_ & Hempty & _).
  exact (Hempty eq_refl).
Defined.

(** C9. For a request with a body, every exception that leaves the [try] of
    [handle_email] is caught: the answer is 500 and its text ends with the
    message of the exception.  In particular a missing API key, a failure
    of the generation service and a failure of [json.loads] are answered
    500 with their message. *)
Theorem handle_email_internal_error sv form s email_body :
  form !! "text" = Some email_body -> email_body <> "" ->
  (forall e s1,
      handle_email_try sv email_body (form_get form "from")
        (log s [Printed LogWebhookReceived]) = (Raise e, s1) ->
      handle_email sv form s
      = (Ok (Response ("Internal server error: " ++ exn_msg e) 500),
         log s1 [Printed (LogCriticalError e)]))
  /\ (from_option PyStr.truthy false (getenv sv "GEMINI_API_KEY") = false ->
      fst (handle_email sv form s)
      = Ok (Response
              "Internal server error: GEMINI_API_KEY not found in environment variables."
              500))
  /\ (forall s1 e,
        GeminiProcessor_init sv
          (log s [Printed LogWebhookReceived; Entered ExtractionClient]) = (Ok (), s1) ->
        generate_content sv (PROMPT ++ email_body) = Raise e
        \/ (exists text,
              generate_content sv (PROMPT ++ email_body) = Ok text
              /\ json_loads sv (clean_json_response text) = Raise e) ->
        fst (handle_email sv form s)
        = Ok (Response
                ("Internal server error: Gemini API call or JSON parsing failed: "
                 ++ exn_msg e) 500)).
Proof.
  intros Hbody Hne.
  assert (forall e s1,
      handle_email_try sv email_body (form_get form "from")
        (log s [Printed LogWebhookReceived]) = (Raise e, s1) ->
      handle_email sv form s
      = (Ok (Response ("Internal server error: " ++ exn_msg e) 500),
         log s1 [Printed (LogCriticalError e)])) as Hcatch.
  { intros e s1 Htry.
    rewrite (handle_email_with_body sv form s email_body Hbody Hne).
    rewrite (try_run_raise _ _ _ _ _ Htry).
    by rewrite (bind_run_ok _ _ _ _ _ (print_run _ _)). }
  split; [exact Hcatch|]. split.
  - intros Hkey.
    pose proof (handle_email_try_init_raises sv email_body (form_get form "from")
                  (log s [Printed LogWebhookReceived])) as Htry.
    rewrite log_log in Htry.
    rewrite (Hcatch _ _ (Htry _ _ (GeminiProcessor_init_no_key sv _ Hkey))).
    reflexivity.
  - intros s1 e Hinit Hfail.
    assert (extract_data_from_email sv email_body s1
            = (Raise (Exn ValueError
                        ("Gemini API call or JSON parsing failed: " ++ exn_msg e)),
               log s1 [Generate (PROMPT ++ email_body)])) as Hextract.
    { rewrite extract_data_from_email_run.
      by destruct Hfail as [->|(text & -> & ->)]. }
    pose proof (handle_email_try_extract_raises sv email_body (form_get form "from")
                  (log s [Printed LogWebhookReceived])) as Htry.
    rewrite log_log in Htry.
    rewrite (Hcatch _ _ (Htry _ _ _ Hinit Hextract)).
    reflexivity.
Qed.

(** The theorem on a request served without an API key, and on a reply that
    is not JSON. *)
Lemma handle_email_internal_error_witness :
  fst (handle_email Sample.no_key Sample.FORM Sample.start)
  = Ok (Response
          "Internal server error: GEMINI_API_KEY not found in environment variables."
          500)
  /\ fst (handle_email Sample.bad_json Sample.FORM Sample.start)
     = Ok (Response
             ("Internal server error: Gemini API call or JSON parsing failed: "
              ++ "Expecting property name enclosed in double quotes: line 1 column 2 (char 1)")
             500).
Proof.
  split.
  - destruct (handle_email_internal_error Sample.no_key Sample.FORM Sample.start
                Sample.BODY eq_refl ltac:(discriminate)) as (_ & Hkey & _).
    exact (Hkey eq_refl).
  - destruct (handle_email_internal_error Sample.bad_json Sample.FORM Sample.start
                Sample.BODY eq_refl ltac:(discriminate)) as (_ & _ & Hjson).
    refine (Hjson (log Sample.start [Printed LogWebhookReceived; Entered ExtractionClient])
              (Exn ValueError _) _ _).
    + vm_compute; reflexivity.
    + right. exists "{not json}". split; reflexivity.
Defined.



(** A reply whose date is a number: the request has a body, the extraction
    succeeds and the request number is there, but a number has no [strip];
    the answer is 500 and the spreadsheet writer is not entered. *)
Example handle_email_int_date :
  let e := Exn AttributeError "'int' object has no attribute 'strip'" in
  handle_email Sample.int_date Sample.FORM Sample.start
  = (Ok (Response "Internal server error: 'int' object has no attribute 'strip'" 500),
     log Sample.start
       [Printed LogWebhookReceived; Entered ExtractionClient;
        Generate (PROMPT ++ Sample.BODY); Entered DateNormalizer;
        Printed (LogCriticalError e)]).
Proof. vm_compute. reflexivity. Qed.

(** A reply without any brace is cleaned to the empty object, which holds
    no request number: the answer is 400. *)
Example handle_email_no_json :
  fst (handle_email Sample.no_json Sample.FORM Sample.start)
  = Ok (Response "Failed: Could not extract CER#." 400).
Proof. vm_compute. reflexivity. Qed.

(** C10. Whenever [handle_email] answers 400, the spreadsheets and the
    pending answers of the spreadsheet service are as before, and among the
    events of the request there is neither the entry into
    [update_google_sheet] nor any request to the spreadsheet service. *)
Theorem handle_email_400_no_sheet_write sv form s r s' :
  handle_email sv form s = (Ok r, s') ->
  status r = 400 ->
  st_drive s' = st_drive s
  /\ st_faults s' = st_faults s
  /\ exists evs,
       st_trace s' = (st_trace s ++ evs)%list
       /\ Forall (fun ev => ev <> Entered SheetWriter /\ forall c, ev <> Remote c) evs.
Proof.
  intros Hrun Hstatus.
  destruct (handle_email_cases sv form s)
    as [[_ H]|[(e & evs & H & Hq)|[(evs & H & Hq)|(evs & data & s1 & H & _)]]];
    rewrite H in Hrun; injection Hrun as <- <-; try discriminate Hstatus.
  - repeat split; try done. eexists; split; [done|]. by apply forallb_quiet_Forall.
  - repeat split; try done. eexists; split; [done|]. by apply forallb_quiet_Forall.
Qed.

(** The theorem on a request whose extraction finds no request number. *)
Lemma handle_email_400_no_sheet_write_witness :
  let s' := log Sample.start
              [Printed LogWebhookReceived; Entered ExtractionClient;
               Generate (PROMPT ++ Sample.BODY); Printed LogNoCer] in
  handle_email Sample.no_cer Sample.FORM Sample.start
  = (Ok (Response "Failed: Could not extract CER#." 400), s')
  /\ st_drive s' = st_drive Sample.start
  /\ st_faults s' = st_faults Sample.start
  /\ exists evs,
       st_trace s' = (st_trace Sample.start ++ evs)%list
       /\ Forall (fun ev => ev <> Entered SheetWriter /\ forall c, ev <> Remote c) evs.
Proof.
  intros s'.
  assert (handle_email Sample.no_cer Sample.FORM Sample.start
          = (Ok (Response "Failed: Could not extract CER#." 400), s')) as Hrun
    by (vm_compute; reflexivity).
  split; [exact Hrun|].
  exact (handle_email_400_no_sheet_write _ _ _ _ _ Hrun eq_refl).
Defined.

(** C6, amended. For a request that is processed with success, whose
    extraction result holds all eight fields and whose spreadsheet write
    goes through, one row is appended to the tab of the market (after the
    header, when the tab is new).  The row has the ten columns of the header
    in its order: the Forwarded Date column holds the date as normalized by
    [format_date_string], not the extracted text; the Market column the
    derived market; the seven other fields the extracted values; the Source
    Email column the sender of the form. *)
Theorem handle_email_appends_row sv form s email_body s1 d s2
    fd cer capital notes mfg model eta url date sheet :
  form !! "text" = Some email_body -> email_body <> "" ->
  GeminiProcessor_init sv
    (log s [Printed LogWebhookReceived; Entered ExtractionClient]) = (Ok (), s1) ->
  extract_data_from_email sv email_body s1 = (Ok (PDict d), s2) ->
  d !! "Forwarded Date" = Some fd -> d !! "Ardent CER#" = Some cer ->
  d !! "Notes" = Some notes -> d !! "Capital $" = Some capital ->
  d !! "ETA/Install" = Some eta -> d !! "Mfg" = Some mfg ->
  d !! "Model" = Some model -> d !! "URL" = Some url ->
  py_str sv cer <> "" ->
  format_date_string (parse sv) fd = Ok date ->
  credentials_accepted sv ->
  st_faults s = [] ->
  st_drive s !! sheet_name sv = Some sheet ->
  let market := get_market_from_cer (PStr (py_str sv cer)) in
  let new_row := [date; PStr market; cer; capital; notes; mfg; model; eta; url;
                  form_get form "from"] in
  exists s',
    handle_email sv form s
    = (Ok (Response (CHECK_MARK ++ " Success: Email processed and sheet updated.") 200), s')
    /\ st_drive s'
       = <[sheet_name sv :=
             <[market := (default [PStr <$> HEADER] (sheet !! market) ++ [new_row])%list]>
               sheet]> (st_drive s)
    /\ zip HEADER new_row
       = [("Forwarded Date", date); ("Market", PStr market); ("Ardent CER#", cer);
          ("Capital $", capital); ("Notes", notes); ("Mfg", mfg); ("Model", model);
          ("ETA/Install", eta); ("URL", url); ("Source Email", form_get form "from")]
    /\ length new_row = 10%nat.
Proof.
  intros Hbody Hne Hinit Hextract Hfd Hcer Hnotes Hcap Heta Hmfg Hmodel Hurl
    Hcer_ne Hdate Hcreds Hfaults Hsheet market new_row.
  destruct (quiet_run_state _ _ _ _ (GeminiProcessor_init_quiet sv) Hinit) as [Hd1 Hf1].
  destruct (quiet_run_state _ _ _ _ (extract_data_from_email_quiet sv email_body) Hextract)
    as [Hd2 Hf2].
  rewrite Hd1 in Hd2. rewrite Hf1 in Hf2. simpl in Hd2, Hf2.
  rewrite (handle_email_with_body sv form s email_body Hbody Hne).
  pose proof (handle_email_try_extracted sv email_body (form_get form "from")
                (log s [Printed LogWebhookReceived]) s1 d s2) as Htry.
  rewrite log_log in Htry. specialize (Htry Hinit Hextract). cbv zeta in Htry.
  unfold dict_get in Htry at 1 2 3. rewrite Hcer, Hfd in Htry. cbn [from_option id] in Htry.
  rewrite (PyStrFacts.truthy_nonempty _ Hcer_ne), Hdate in Htry.
  change (negb true) with false in Htry. cbv iota in Htry. fold market in Htry.
  set (data := <["Source Email" := form_get form "from"]>
                 (<["Market" := PStr market]> (<["Forwarded Date" := date]> d))) in *.
  destruct (update_google_sheet_writes sv data
              (log s2 [Entered DateNormalizer; Entered Classifier; Entered SheetWriter])
              sheet market Hcreds) as (s' & Hup & Hdrive).
  { simpl. by rewrite Hf2. }
  { simpl. by rewrite Hd2. }
  { unfold data. rewrite lookup_insert_ne by done. apply lookup_insert_eq. }
  rewrite Hup in Htry. simpl snd in Htry.
  exists s'. split; [by rewrite (try_run_ok _ _ _ _ _ Htry)|].
  split; [|done].
  rewrite Hdrive. simpl st_drive. rewrite Hd2.
  replace (row_to_add data (PStr market)) with new_row; [done|].
  unfold row_to_add, new_row, dict_get, data.
  repeat (rewrite lookup_insert_eq || rewrite lookup_insert_ne by done).
  by rewrite Hcer, Hcap, Hnotes, Hmfg, Hmodel, Heta, Hurl.
Qed.

(** The theorem on the sample request: a new tab is made for East Texas and
    the row follows its header. *)
Lemma handle_email_appends_row_witness :
  exists s',
    handle_email Sample.good Sample.FORM Sample.start
    = (Ok (Response (CHECK_MARK ++ " Success: Email processed and sheet updated.") 200), s')
    /\ st_drive s'
       = <["CER_Report" :=
             <["East Texas" :=
                 [PStr <$> HEADER;
                  [PStr "1/5/2024"; PStr "East Texas"; PStr "5510-001"; PStr "315000";
                   PStr "ED Expansion"; PStr "Stryker"; PStr "T5"; PStr "Q3 2024";
                   PStr "http://erp.example/cer/1"; PStr "relay@example.com"]]]>
               {[ "Idaho" := [PStr <$> HEADER] ]}]> Sample.DRIVE.
Proof.
  set (s1 := log Sample.start [Printed LogWebhookReceived; Entered ExtractionClient]).
  set (s2 := log s1 [Generate (PROMPT ++ Sample.BODY)]).
  assert (GeminiProcessor_init Sample.good s1 = (Ok (), s1)) as Hinit
    by (vm_compute; reflexivity).
  assert (extract_data_from_email Sample.good Sample.BODY s1
          = (Ok (PDict Sample.REPLY_FIELDS), s2)) as Hextract
    by (vm_compute; reflexivity).
  assert (credentials_accepted Sample.good) as Hcreds.
  { exists "{}", (PDict ∅). repeat split; try reflexivity. discriminate. }
  destruct (handle_email_appends_row Sample.good Sample.FORM Sample.start
              Sample.BODY s1 Sample.REPLY_FIELDS s2
              (PStr "2024-01-05") (PStr "5510-001") (PStr "315000")
              (PStr "ED Expansion") (PStr "Stryker") (PStr "T5") (PStr "Q3 2024")
              (PStr "http://erp.example/cer/1") (PStr "1/5/2024")
              {[ "Idaho" := [PStr <$> HEADER] ]}
              eq_refl ltac:(discriminate) Hinit Hextract
              eq_refl eq_refl eq_refl eq_refl eq_refl eq_refl eq_refl eq_refl
              ltac:(discriminate) eq_refl Hcreds eq_refl eq_refl)
    as (s' & Hrun & Hdrive & _).
  exists s'. split; [exact Hrun|]. rewrite Hdrive. reflexivity.
Defined.

(** C6 as stated fails: the reply holds all eight fields, the request is
    processed with success and the row is written, but the extracted
    Forwarded Date, 2024-01-05, is nowhere in the row: its first column
    holds 1/5/2024. *)
Lemma handle_email_row_date_normalized :
  let s1 := log Sample.start [Printed LogWebhookReceived; Entered ExtractionClient] in
  let run := handle_email Sample.good Sample.FORM Sample.start in
  let new_row :=
    [PStr "1/5/2024"; PStr "East Texas"; PStr "5510-001"; PStr "315000";
     PStr "ED Expansion"; PStr "Stryker"; PStr "T5"; PStr "Q3 2024";
     PStr "http://erp.example/cer/1"; PStr "relay@example.com"] in
  fst (extract_data_from_email Sample.good Sample.BODY s1) = Ok (PDict Sample.REPLY_FIELDS)
  /\ Sample.REPLY_FIELDS !! "Forwarded Date" = Some (PStr "2024-01-05")
  /\ fst run
     = Ok (Response (CHECK_MARK ++ " Success: Email processed and sheet updated.") 200)
  /\ (st_drive (snd run) !! "CER_Report" ≫= (.!! "East Texas"))
     = Some [PStr <$> HEADER; new_row]
  /\ Forall (fun v => v <> PStr "2024-01-05") new_row.
Proof.
  repeat split; try (vm_compute; reflexivity).
  repeat constructor; discriminate.
Qed.

(** * Further properties *)

(** ** The JSON cleaner on every text *)

Module CleanShape.
Import PyStr PyStrFacts CleanFacts.

(** A character that occurs has a first and a last occurrence. *)
Lemma occurs_split_first c s :
  occurs c s = true ->
  exists pre post, s = pre ++ String c post /\ occurs c pre = false.
Proof.
  induction s as [|a s IH]; simpl; [done|].
  destruct (Ascii.eqb_spec a c) as [->|Hne]; simpl.
  - intros _. by exists "", s.
  - intros (pre & post & -> & Hpre)%IH. exists (String a pre), post.
    split; [done|]. simpl. rewrite Hpre.
    by destruct (Ascii.eqb_spec a c).
Qed.

Lemma occurs_split_last c s :
  occurs c s = true ->
  exists pre post, s = pre ++ String c post /\ occurs c post = false.
Proof.
  induction s as [|a s IH]; simpl; [done|].
  destruct (occurs c s) eqn:Hs.
  - intros _. destruct (IH eq_refl) as (pre & post & -> & Hpost).
    by exists (String a pre), post.
  - rewrite orb_false_r. intros ->%Ascii.eqb_eq. by exists "", s.
Qed.

(** Text without [c] after a string does not move the last occurrence. *)
Lemma rfind_app_absent c s t :
  occurs c t = false -> rfind c (s ++ t) = rfind c s.
Proof.
  intros Ht. induction s as [|a s IH].
  - rewrite app_nil_l. by apply rfind_absent.
  - rewrite app_cons. simpl. by rewrite IH.
Qed.

(** The character at the index [rfind] answers is the one looked for. *)
Lemma rfind_char c s :
  0 <= rfind c s ->
  String.substring (Z.to_nat (rfind c s)) 1 s = String c "".
Proof.
  induction s as [|a s IH]; simpl; [lia|].
  destruct (Z.leb_spec 0 (rfind c s)) as [Hr|Hr].
  - intros _. replace (Z.to_nat (rfind c s + 1)) with (S (Z.to_nat (rfind c s))) by lia.
    simpl. by apply IH.
  - destruct (Ascii.eqb_spec a c) as [->|]; [|lia]. intros _. simpl.
    by rewrite substring_0_0.
Qed.

(** A slice whose stop is not after its start is empty. *)
Lemma slice_empty s (i j : Z) :
  0 <= i -> 0 <= j -> j <= i -> slice s i j = "".
Proof.
  intros Hi Hj Hji. unfold slice, adjust.
  destruct (Z.ltb_spec i 0), (Z.ltb_spec j 0); try lia.
  replace (Z.to_nat (Z.min j (len s) - Z.min i (len s))) with 0%nat by lia.
  apply substring_len0.
Qed.

End CleanShape.

(** The three shapes of a cleaned text. *)
Lemma clean_json_response_cases text :
  clean_json_response text = "{}"
  \/ (PyStr.occurs "{" text = false /\ clean_json_response text = "}")
  \/ (exists pre mid post,
        text = pre ++ "{" ++ mid ++ "}" ++ post
        /\ PyStr.occurs "{" pre = false /\ PyStr.occurs "}" post = false
        /\ clean_json_response text = "{" ++ mid ++ "}").
Proof.
  destruct (PyStr.occurs "{" text) eqn:Hopen.
  - destruct (CleanShape.occurs_split_first _ _ Hopen) as (pre & rest & -> & Hpre).
    destruct (PyStr.occurs "}" rest) eqn:Hclose.
    + destruct (CleanShape.occurs_split_last _ _ Hclose) as (mid & post & -> & Hpost).
      right; right. exists pre, mid, post. split; [done|]. split; [done|]. split; [done|].
      by apply (CleanFacts.clean_json_response_found pre mid post).
    + left. unfold clean_json_response.
      rewrite PyStrFacts.find_first by done.
      rewrite CleanShape.rfind_app_absent by (simpl; by rewrite Hclose).
      pose proof (PyStrFacts.rfind_bounds "}" pre).
      pose proof (PyStrFacts.len_nonneg pre).
      by rewrite CleanShape.slice_empty by lia.
  - unfold clean_json_response. rewrite PyStrFacts.find_absent by done.
    pose proof (PyStrFacts.rfind_bounds "}" text) as Hr.
    pose proof (PyStrFacts.len_nonneg text) as Hn.
    destruct (decide (PyStr.rfind "}" text = PyStr.len text - 1 /\ 0 < PyStr.len text))
      as [[Hlast Hpos]|Hnot].
    + right; left. split; [done|].
      unfold PyStr.slice, PyStr.adjust. change (-1 <? 0) with true. cbv iota.
      destruct (Z.ltb_spec (PyStr.rfind "}" text + 1) 0); [lia|].
      rewrite Z.max_r, Z.min_l by lia.
      replace (Z.to_nat (PyStr.rfind "}" text + 1 - (-1 + PyStr.len text))) with 1%nat by lia.
      replace (-1 + PyStr.len text) with (PyStr.rfind "}" text) by lia.
      by rewrite CleanShape.rfind_char by lia.
    + left. unfold PyStr.slice, PyStr.adjust. change (-1 <? 0) with true. cbv iota.
      destruct (Z.ltb_spec (PyStr.rfind "}" text + 1) 0); [lia|].
      replace (Z.to_nat (Z.min (PyStr.rfind "}" text + 1) (PyStr.len text)
                         - Z.max 0 (-1 + PyStr.len text))) with 0%nat by lia.
      by rewrite CleanFacts.substring_len0.
Qed.

(** X1. Where the text holds an opening brace and a closing brace after
    it, [clean_json_response] returns the part of the text from the first
    opening brace to the last closing brace, both included, whatever stands
    before and after. *)
Theorem clean_json_response_object pre mid post :
  PyStr.occurs "{" pre = false ->
  PyStr.occurs "}" post = false ->
  clean_json_response (pre ++ "{" ++ mid ++ "}" ++ post) = "{" ++ mid ++ "}".
Proof. apply CleanFacts.clean_json_response_found. Qed.

(** The theorem on a reply in a Markdown fence, with braces inside the
    object. *)
Lemma clean_json_response_object_witness :
  PyStr.occurs "{" "```json " = false
  /\ PyStr.occurs "}" " ```" = false
  /\ clean_json_response ("```json " ++ "{" ++ "a:{b:1},c:2" ++ "}" ++ " ```")
     = "{a:{b:1},c:2}".
Proof.
  split; [reflexivity|]. split; [reflexivity|].
  exact (clean_json_response_object "```json " "a:{b:1},c:2" " ```" eq_refl eq_refl).
Defined.

(** X2. The result of [clean_json_response] has one of three shapes: the
    empty object, a lone closing brace (when the text has no opening brace
    and ends with a closing one), or the part of the text from its first
    opening brace to its last closing brace.  It is never empty. *)
Theorem clean_json_response_shape text :
  clean_json_response text = "{}"
  \/ (PyStr.occurs "{" text = false /\ clean_json_response text = "}")
  \/ (exists pre mid post,
        text = pre ++ "{" ++ mid ++ "}" ++ post
        /\ PyStr.occurs "{" pre = false /\ PyStr.occurs "}" post = false
        /\ clean_json_response text = "{" ++ mid ++ "}").
Proof. apply clean_json_response_cases. Qed.

(** X3. Cleaning a cleaned text changes nothing. *)
Theorem clean_json_response_idempotent text :
  clean_json_response (clean_json_response text) = clean_json_response text.
Proof.
  destruct (clean_json_response_cases text)
    as [->|[[_ ->]|(pre & mid & post & _ & _ & _ & ->)]]; [done|done|].
  exact (CleanFacts.clean_json_response_found "" mid "" eq_refl eq_refl).
Qed.

(** ** The classifier on every value *)

(** A string is its first [n] characters followed by the rest. *)
Lemma substring_prefix_split n s :
  exists rest, s = String.substring 0 n s ++ rest.
Proof.
  revert s. induction n as [|n IH]; intros s.
  - exists s. by rewrite PyStrFacts.substring_0_0.
  - destruct s as [|a s]; [by exists ""|].
    destruct (IH s) as (rest & Hrest). exists rest. simpl.
    by rewrite PyStrFacts.app_cons, <- Hrest.
Qed.

Lemma MARKET_KEY_values k name :
  MARKET_KEY !! k = Some name -> name ∈ MARKET_NAMES /\ name <> NO_MATCH.
Proof.
  intros H. apply elem_of_list_to_map_2 in H.
  assert (Forall (fun p => p.2 ∈ MARKET_NAMES /\ p.2 <> NO_MATCH) MARKET_KEY_items) as Hall.
  { repeat constructor; try discriminate; simpl; set_solver. }
  rewrite Forall_forall in Hall. exact (Hall (k, name) H).
Qed.

(** X4. The sentinel is unambiguous: [get_market_from_cer] answers
    something other than [No Match] exactly for the strings that start with
    a key of the table, and then it answers the name of that key. *)
Theorem get_market_from_cer_match v :
  get_market_from_cer v <> NO_MATCH
  <-> exists k rest name,
        v = PStr (k ++ rest) /\ MARKET_KEY !! k = Some name
        /\ get_market_from_cer v = name.
Proof.
  split.
  - destruct v as [| | | |s| |]; try done. unfold get_market_from_cer.
    destruct (Z.leb_spec 4 (PyStr.len s)) as [Hlen|]; [|done].
    destruct (MARKET_KEY !! PyStr.slice s 0 4) as [name|] eqn:Hk; [|done].
    intros _. pose proof (PyStrFacts.len_nonneg s).
    rewrite PyStrFacts.slice_inside in Hk by lia.
    destruct (substring_prefix_split 4 s) as (rest & Hrest).
    exists (String.substring 0 4 s), rest, name. split; [by rewrite <- Hrest|].
    split; [exact Hk|]. done.
  - intros (k & rest & name & -> & Hk & ->).
    by destruct (MARKET_KEY_values k name Hk).
Qed.

(** The answers of the classifier. *)
Lemma get_market_from_cer_in_names v :
  get_market_from_cer v = NO_MATCH \/ get_market_from_cer v ∈ MARKET_NAMES.
Proof.
  destruct v as [| | | |s| |]; try (by left). unfold get_market_from_cer.
  destruct (4 <=? PyStr.len s); [|by left].
  destruct (MARKET_KEY !! PyStr.slice s 0 4) as [name|] eqn:Hk; [|by left].
  right. by destruct (MARKET_KEY_values _ _ Hk).
Qed.

(** X5. Whatever it is given, [get_market_from_cer] answers [No Match] or
    one of the nine market names of the table. *)
Theorem get_market_from_cer_range v :
  get_market_from_cer v = NO_MATCH \/ get_market_from_cer v ∈ MARKET_NAMES.
Proof. apply get_market_from_cer_in_names. Qed.

(** The theorem on the request number of the specification's example. *)
Lemma get_market_from_cer_match_witness :
  get_market_from_cer (PStr "5510-001") <> NO_MATCH
  /\ exists k rest name,
       PStr "5510-001" = PStr (k ++ rest) /\ MARKET_KEY !! k = Some name
       /\ get_market_from_cer (PStr "5510-001") = name.
Proof.
  assert (get_market_from_cer (PStr "5510-001") <> NO_MATCH) as H by discriminate.
  split; [exact H|].
  exact (proj1 (get_market_from_cer_match (PStr "5510-001")) H).
Defined.

(** ** The date normalizer on every value *)

Module RenderFacts.
Import PyStr PyStrFacts.

Lemma string_of_uint_noslash d : occurs "/" (NilEmpty.string_of_uint d) = false.
Proof. induction d; simpl; auto. Qed.

Lemma of_N_noslash n : occurs "/" (of_N n) = false.
Proof.
  unfold of_N, NilZero.string_of_uint.
  destruct (N.to_uint n); try apply string_of_uint_noslash; done.
Qed.

Lemma to_uint_nonnil n : N.to_uint n <> Decimal.Nil.
Proof. destruct n; [done|]. apply DecimalPos.Unsigned.to_uint_nonnil. Qed.

(** Different numbers have different numerals. *)
Lemma of_N_inj n m : of_N n = of_N m -> n = m.
Proof.
  intros H. apply DecimalN.Unsigned.to_uint_inj.
  pose proof (NilZero.usu _ (to_uint_nonnil n)) as Hn.
  pose proof (NilZero.usu _ (to_uint_nonnil m)) as Hm.
  unfold of_N in H. rewrite H in Hn. rewrite Hn in Hm. by injection Hm.
Qed.

(** Two texts cut at their first slash agree part by part. *)
Lemma split_at_slash a a' r r' :
  occurs "/" a = false -> occurs "/" a' = false ->
  a ++ "/" ++ r = a' ++ "/" ++ r' -> a = a' /\ r = r'.
Proof.
  revert a'. induction a as [|c a IH]; intros [|c' a'] Ha Ha' H.
  - rewrite !app_nil_l in H. by injection H.
  - rewrite app_nil_l, app_cons in H. injection H as <- _.
    simpl in Ha'. done.
  - rewrite app_nil_l, app_cons in H. injection H as -> _.
    simpl in Ha. done.
  - rewrite !app_cons in H. injection H as -> H.
    simpl in Ha, Ha'. apply orb_false_iff in Ha as [_ Ha].
    apply orb_false_iff in Ha' as [_ Ha'].
    destruct (IH a' Ha Ha' H) as [-> ->]. done.
Qed.

End RenderFacts.

(** X6. The normalized form determines the date: two dates with the same
    rendering have the same month, day and year. *)
Theorem render_date_inj d d' : render_date d = render_date d' -> d = d'.
Proof.
  destruct d as [y m dd], d' as [y' m' dd']. unfold render_date. simpl.
  intros H.
  apply RenderFacts.split_at_slash in H as [Hm H];
    try apply RenderFacts.of_N_noslash.
  apply RenderFacts.split_at_slash in H as [Hd Hy];
    try apply RenderFacts.of_N_noslash.
  apply RenderFacts.of_N_inj in Hm, Hd, Hy. by subst.
Qed.

(** The theorem on a date, and two renderings told apart by the place of a
    slash. *)
Lemma render_date_inj_witness :
  render_date (Datetime 2024 1 12) = "1/12/2024"
  /\ render_date (Datetime 2024 11 2) = "11/2/2024"
  /\ Datetime 2024 1 12 = Datetime 2024 1 12.
Proof.
  split; [reflexivity|]. split; [reflexivity|].
  exact (render_date_inj (Datetime 2024 1 12) (Datetime 2024 1 12) eq_refl).
Defined.

Section FormatDateCases.

Variable parse : string -> result datetime.

(** X7. [format_date_string] raises in two cases only: on a value that is
    true and is not a string, an [AttributeError] for the missing [strip];
    on a non-empty string on which [parse] raises an exception that is
    neither a [ValueError] nor a [TypeError], that exception. *)
Theorem format_date_string_raises v e :
  format_date_string parse v = Raise e
  <-> (truthy v = true /\ (forall s, v <> PStr s)
       /\ e = Exn AttributeError
                ("'" ++ type_name v ++ "' object has no attribute 'strip'"))
      \/ (exists s, v = PStr s /\ s <> ""
            /\ parse (PyStr.strip s) = Raise e
            /\ is_value_or_type_error e = false).
Proof.
  split.
  - unfold format_date_string. destruct (truthy v) eqn:Hv; [|done]. simpl.
    destruct v as [| | | |s| |]; try done;
      try (intros [= <-]; left; by repeat split).
    destruct (parse (PyStr.strip s)) as [d|e0] eqn:Hp; [done|].
    destruct (is_value_or_type_error e0) eqn:Hcls; [done|].
    intros [= <-]. right. exists s. repeat split; try done. by intros ->.
  - intros [(Hv & Hns & ->)|(s & -> & Hs & Hp & Hcls)].
    + unfold format_date_string. rewrite Hv. simpl.
      destruct v; try done. by destruct (Hns s).
    + by apply format_date_string_propagates.
Qed.

(** X8. Whenever [format_date_string] returns, it returns a string: the
    empty string for a value that is false ([None], the empty string, zero,
    an empty list or dict), the normalized date, or the string it was
    given. *)
Theorem format_date_string_returns_str v r :
  format_date_string parse v = Ok r ->
  (truthy v = false /\ r = PStr "")
  \/ (exists s d, v = PStr s /\ parse (PyStr.strip s) = Ok d
        /\ r = PStr (render_date d))
  \/ (exists s e, v = PStr s /\ parse (PyStr.strip s) = Raise e
        /\ is_value_or_type_error e = true /\ r = PStr s).
Proof.
  unfold format_date_string. destruct (truthy v) eqn:Hv; simpl.
  2:{ intros [= <-]. by left. }
  destruct v as [| | | |s| |]; try done.
  destruct (parse (PyStr.strip s)) as [d|e] eqn:Hp.
  - intros [= <-]. right; left. by exists s, d.
  - destruct (is_value_or_type_error e) eqn:Hcls; [|done].
    intros [= <-]. right; right. by exists s, e.
Qed.

End FormatDateCases.

(** The theorem on [None], which stands for a missing date. *)
Lemma format_date_string_returns_str_witness :
  format_date_string Sample.parse_table PNone = Ok (PStr "")
  /\ ((truthy PNone = false /\ PStr "" = PStr "")
      \/ (exists s d, PNone = PStr s /\ Sample.parse_table (PyStr.strip s) = Ok d
            /\ PStr "" = PStr (render_date d))
      \/ (exists s e, PNone = PStr s /\ Sample.parse_table (PyStr.strip s) = Raise e
            /\ is_value_or_type_error e = true /\ PStr "" = PStr s)).
Proof.
  split; [reflexivity|].
  exact (format_date_string_returns_str Sample.parse_table PNone (PStr "") eq_refl).
Defined.

(** The theorem on a date that is a number. *)
Lemma format_date_string_raises_witness :
  truthy (PInt 20240105) = true
  /\ format_date_string Sample.parse_table (PInt 20240105)
     = Raise (Exn AttributeError "'int' object has no attribute 'strip'").
Proof.
  split; [reflexivity|].
  apply (proj2 (format_date_string_raises Sample.parse_table (PInt 20240105) _)).
  left. split; [reflexivity|]. split; [intros s; discriminate|reflexivity].
Defined.

(** ** The extraction client *)

Section ExtractionFacts.

Variable sv : services.

(** X9. [GeminiProcessor()] succeeds exactly when the API key is in the
    environment and not empty and the two library calls go through, and
    then it leaves the state as it was; when it fails, the exception is
    raised again after one line is printed, and nothing else has happened. *)
Theorem GeminiProcessor_init_outcome s :
  (fst (GeminiProcessor_init sv s) = Ok ()
   <-> exists k, getenv sv "GEMINI_API_KEY" = Some k /\ k <> ""
         /\ genai_configure sv k = None
         /\ genai_model sv "gemini-1.5-flash-latest" = None)
  /\ (fst (GeminiProcessor_init sv s) = Ok () -> snd (GeminiProcessor_init sv s) = s)
  /\ (forall e, fst (GeminiProcessor_init sv s) = Raise e ->
        snd (GeminiProcessor_init sv s) = log s [Printed (LogApiConfigError e)]).
Proof.
  unfold GeminiProcessor_init, try_except, mbind, M_bind, lift_check, raise.
  destruct (getenv sv "GEMINI_API_KEY") as [k|] eqn:Hk; simpl.
  2:{ split; [|split]; try done.
      - split; [done|]. by intros (k & [=] & _).
      - by intros e [= <-]. }
  destruct (PyStr.truthy k) eqn:Hkt; simpl.
  2:{ apply PyStrFacts.truthy_empty_iff in Hkt as ->.
      split; [|split]; try done.
      - split; [done|]. by intros (k & [= <-] & Hne & _).
      - by intros e [= <-]. }
  assert (k <> "") as Hne by (by intros ->).
  destruct (genai_configure sv k) as [e1|] eqn:Hconf; simpl.
  { split; [|split]; try done.
    - split; [done|]. intros (k' & [= <-] & _ & Hc & _). congruence.
    - by intros e [= <-]. }
  destruct (genai_model sv "gemini-1.5-flash-latest") as [e2|] eqn:Hmodel; simpl.
  { split; [|split]; try done.
    - split; [done|]. intros (k' & [= <-] & _ & _ & Hc). congruence.
    - by intros e [= <-]. }
  split; [|split]; try done.
  split; [|done]. intros _. by exists k.
Qed.

(** X10. [extract_data_from_email] sends one prompt, the instruction text
    followed by the body of the e-mail, whatever the outcome; and whatever
    the service or [json.loads] raises, what leaves the function is a
    [ValueError] whose message is the fixed prefix followed by the message
    of the original exception. *)
Theorem extract_data_from_email_failure email_body s :
  snd (extract_data_from_email sv email_body s)
  = log s [Generate (PROMPT ++ email_body)]
  /\ (forall e,
        fst (extract_data_from_email sv email_body s) = Raise e ->
        exn_cls e = ValueError
        /\ exists e0,
             exn_msg e = "Gemini API call or JSON parsing failed: " ++ exn_msg e0
             /\ (generate_content sv (PROMPT ++ email_body) = Raise e0
                 \/ exists text,
                      generate_content sv (PROMPT ++ email_body) = Ok text
                      /\ json_loads sv (clean_json_response text) = Raise e0)).
Proof.
  rewrite extract_data_from_email_run. simpl. split; [done|].
  intros e.
  destruct (generate_content sv (PROMPT ++ email_body)) as [text|e0] eqn:Hgen.
  - destruct (json_loads sv (clean_json_response text)) as [v|e0] eqn:Hjson; [done|].
    intros [= <-]. split; [done|]. exists e0. split; [done|]. right. by exists text.
  - intros [= <-]. split; [done|]. exists e0. split; [done|]. by left.
Qed.

(** X11. Prose around the object is tolerated: when the reply holds an
    opening brace and a closing brace after it, [json.loads] is given the
    text from the first opening to the last closing brace, and what it
    returns is the result of the extraction. *)
Theorem extract_data_from_email_prose email_body s pre mid post v :
  generate_content sv (PROMPT ++ email_body) = Ok (pre ++ "{" ++ mid ++ "}" ++ post) ->
  PyStr.occurs "{" pre = false ->
  PyStr.occurs "}" post = false ->
  json_loads sv ("{" ++ mid ++ "}") = Ok v ->
  extract_data_from_email sv email_body s
  = (Ok v, log s [Generate (PROMPT ++ email_body)]).
Proof.
  intros Hgen Hpre Hpost Hjson.
  rewrite extract_data_from_email_run. cbv zeta. rewrite Hgen.
  by rewrite CleanFacts.clean_json_response_found, Hjson.
Qed.

(** X12. A reply without any brace is read as the empty object: when
    [json.loads] returns the empty dict for it, there is no request number
    and the request is answered 400, not 500. *)
Theorem handle_email_reply_without_json form s email_body s1 text :
  form !! "text" = Some email_body -> email_body <> "" ->
  GeminiProcessor_init sv
    (log s [Printed LogWebhookReceived; Entered ExtractionClient]) = (Ok (), s1) ->
  generate_content sv (PROMPT ++ email_body) = Ok text ->
  PyStr.occurs "{" text = false -> PyStr.occurs "}" text = false ->
  json_loads sv "{}" = Ok (PDict ∅) ->
  handle_email sv form s
  = (Ok (Response "Failed: Could not extract CER#." 400),
     log s1 [Generate (PROMPT ++ email_body); Printed LogNoCer]).
Proof.
  intros Hbody Hne Hinit Hgen Hopen Hclose Hjson.
  assert (extract_data_from_email sv email_body s1
          = (Ok (PDict ∅), log s1 [Generate (PROMPT ++ email_body)])) as Hextract.
  { rewrite extract_data_from_email_run. cbv zeta. rewrite Hgen.
    by rewrite CleanFacts.clean_json_response_no_brace, Hjson. }
  rewrite (handle_email_with_body sv form s email_body Hbody Hne).
  pose proof (handle_email_try_extracted sv email_body (form_get form "from")
                (log s [Printed LogWebhookReceived]) s1 ∅
                (log s1 [Generate (PROMPT ++ email_body)])) as Htry.
  rewrite log_log in Htry. specialize (Htry Hinit Hextract). cbv zeta in Htry.
  unfold dict_get in Htry at 1. rewrite lookup_empty in Htry.
  change (negb (PyStr.truthy (py_str sv (from_option id (PStr "") None))))
    with true in Htry. cbv iota in Htry.
  rewrite (try_run_ok _ _ _ _ _ Htry). by rewrite log_log.
Qed.

End ExtractionFacts.

(** The theorem on a service without a key and on one with a key. *)
Lemma GeminiProcessor_init_outcome_witness :
  fst (GeminiProcessor_init Sample.good Sample.start) = Ok ()
  /\ snd (GeminiProcessor_init Sample.good Sample.start) = Sample.start
  /\ fst (GeminiProcessor_init Sample.no_key Sample.start)
     = Raise (Exn ValueError "GEMINI_API_KEY not found in environment variables.")
  /\ snd (GeminiProcessor_init Sample.no_key Sample.start)
     = log Sample.start
         [Printed (LogApiConfigError
                     (Exn ValueError "GEMINI_API_KEY not found in environment variables."))].
Proof.
  destruct (GeminiProcessor_init_outcome Sample.good Sample.start) as (Hiff & Hok & _).
  destruct (GeminiProcessor_init_outcome Sample.no_key Sample.start) as (_ & _ & Hraise).
  assert (fst (GeminiProcessor_init Sample.good Sample.start) = Ok ()) as H1.
  { apply Hiff. exists "secret". repeat split; try reflexivity. discriminate. }
  split; [exact H1|]. split; [exact (Hok H1)|]. split; [reflexivity|].
  exact (Hraise _ eq_refl).
Defined.

(** The theorem on a reply that is not JSON. *)
Lemma extract_data_from_email_failure_witness :
  fst (extract_data_from_email Sample.bad_json Sample.BODY Sample.start)
  = Raise (Exn ValueError
             ("Gemini API call or JSON parsing failed: "
              ++ "Expecting property name enclosed in double quotes: line 1 column 2 (char 1)"))
  /\ exn_cls (Exn ValueError
               ("Gemini API call or JSON parsing failed: "
                ++ "Expecting property name enclosed in double quotes: line 1 column 2 (char 1)"))
     = ValueError.
Proof.
  split; [reflexivity|].
  exact (proj1 (proj2 (extract_data_from_email_failure Sample.bad_json Sample.BODY
                         Sample.start) _ eq_refl)).
Defined.

(** The theorem on the sample reply, which wraps the object in two
    sentences. *)
Lemma extract_data_from_email_prose_witness :
  extract_data_from_email Sample.good Sample.BODY Sample.start
  = (Ok (PDict Sample.REPLY_FIELDS),
     log Sample.start [Generate (PROMPT ++ Sample.BODY)]).
Proof.
  apply (extract_data_from_email_prose Sample.good Sample.BODY Sample.start
           "Here is the JSON you asked for: "
           (String.substring 1 (String.length Sample.REPLY_JSON - 2) Sample.REPLY_JSON)
           " Anything else?" (PDict Sample.REPLY_FIELDS));
    vm_compute; reflexivity.
Defined.

(** The theorem on a reply in plain words. *)
Lemma handle_email_reply_without_json_witness :
  handle_email Sample.no_json Sample.FORM Sample.start
  = (Ok (Response "Failed: Could not extract CER#." 400),
     log Sample.start
       [Printed LogWebhookReceived; Entered ExtractionClient;
        Generate (PROMPT ++ Sample.BODY); Printed LogNoCer]).
Proof.
  pose proof (handle_email_reply_without_json Sample.no_json Sample.FORM Sample.start
                Sample.BODY
                (log Sample.start [Printed LogWebhookReceived; Entered ExtractionClient])
                "I could not read this email." eq_refl ltac:(discriminate)) as H.
  rewrite log_log in H. apply H; vm_compute; reflexivity.
Defined.

(** ** What the spreadsheet writer can change *)

Global Instance appends_to_preorder name t : PreOrder (appends_to name t).
Proof.
  split.
  - intros d. by left.
  - intros d1 d2 d3 [->|(sheet & rows & Hsheet & ->)] H23; [done|].
    destruct H23 as [->|(sheet' & rows' & Hsheet' & ->)].
    + right. by exists sheet, rows.
    + rewrite lookup_insert_eq in Hsheet'. injection Hsheet' as <-.
      right. exists sheet, (rows ++ rows')%list. split; [done|].
      rewrite lookup_insert_eq. simpl.
      by rewrite !insert_insert_eq, app_assoc.
Qed.

Section Keeps.

Context (R : relation (gmap string (gmap string (list (list pyval))))) `{!PreOrder R}.

Lemma keeps_ret {A} (a : A) : keeps R (mret a : M A).
Proof. by intros s r s' [= <- <-]. Qed.

Lemma keeps_raise {A} e : keeps R (raise e : M A).
Proof. by intros s r s' [= <- <-]. Qed.

Lemma keeps_lift {A} (x : result A) : keeps R (lift x).
Proof. by intros s r s' [= <- <-]. Qed.

Lemma keeps_lift_check o : keeps R (lift_check o).
Proof. destruct o; [apply keeps_raise | apply keeps_ret]. Qed.

Lemma keeps_emit ev : keeps R (emit ev).
Proof. by intros s r s' [= <- <-]. Qed.

Lemma keeps_print l : keeps R (print l).
Proof. apply keeps_emit. Qed.

Lemma keeps_remote c : keeps R (remote c).
Proof.
  intros s r s'. unfold remote.
  destruct (head (st_faults s)) as [[e|]|]; by intros [= <- <-].
Qed.

Lemma keeps_bind_returns {A B} (P : A -> Prop) (m : M A) (f : A -> M B) :
  keeps R m -> returns P m -> (forall a, P a -> keeps R (f a)) -> keeps R (m ≫= f).
Proof.
  intros Hm HP Hf s r s'. unfold mbind, M_bind.
  destruct (m s) as [[a|e] s1] eqn:Hrun.
  - intros Hrun'. etrans; [exact (Hm _ _ _ Hrun)|].
    exact (Hf a (HP _ _ _ Hrun) _ _ _ Hrun').
  - intros [= <- <-]. exact (Hm _ _ _ Hrun).
Qed.

Lemma keeps_bind {A B} (m : M A) (f : A -> M B) :
  keeps R m -> (forall a, keeps R (f a)) -> keeps R (m ≫= f).
Proof.
  intros Hm Hf. apply (keeps_bind_returns (fun _ => True)); auto. by intros ???.
Qed.

Lemma keeps_try {A} (m : M A) h :
  keeps R m -> (forall e, keeps R (h e)) -> keeps R (try_except m h).
Proof.
  intros Hm Hh s r s'. unfold try_except.
  destruct (m s) as [[a|e] s1] eqn:Hrun.
  - intros [= <- <-]. exact (Hm _ _ _ Hrun).
  - intros Hrun'. etrans; [exact (Hm _ _ _ Hrun)|]. exact (Hh e _ _ _ Hrun').
Qed.

(** A quiet computation leaves the spreadsheets as they are. *)
Lemma keeps_quiet {A} (m : M A) : runs_quietly m -> keeps R m.
Proof.
  intros Hq s r s' Hrun. by destruct (quiet_run_state m s r s' Hq Hrun) as [-> _].
Qed.

End Keeps.

Lemma returns_ret {A} (P : A -> Prop) (a : A) : P a -> returns P (mret a : M A).
Proof. by intros HP s a' s' [= <- <-]. Qed.

Lemma returns_raise {A} (P : A -> Prop) e : returns P (raise e : M A).
Proof. by intros s a s' [=]. Qed.

Lemma returns_bind {A B} (P : B -> Prop) (m : M A) (f : A -> M B) :
  (forall a, returns P (f a)) -> returns P (m ≫= f).
Proof.
  intros Hf s b s'. unfold mbind, M_bind.
  destruct (m s) as [[a|e] s1]; [apply Hf|done].
Qed.

Lemma returns_try {A} (P : A -> Prop) (m : M A) h :
  returns P m -> (forall e, returns P (h e)) -> returns P (try_except m h).
Proof.
  intros Hm Hh s a s'. unfold try_except.
  destruct (m s) as [[a0|e] s1] eqn:Hrun.
  - intros [= <- <-]. exact (Hm _ _ _ Hrun).
  - apply Hh.
Qed.

Section SheetFrame.

Variable sv : services.

Lemma keeps_get_gspread_client R `{!PreOrder R} : keeps R (get_gspread_client sv).
Proof.
  unfold get_gspread_client. destruct (negb _); [apply keeps_raise; apply _|].
  apply keeps_bind; [apply _|apply keeps_lift; apply _|]. intros a.
  apply keeps_bind; [apply _|apply keeps_lift_check; apply _|]. intros _.
  apply keeps_remote; apply _.
Qed.

Lemma keeps_client_open R `{!PreOrder R} name : keeps R (client_open name).
Proof.
  unfold client_open.
  apply keeps_bind; [apply _|apply keeps_remote; apply _|]. intros _.
  intros s r s'. unfold mbind, M_bind, get_drive.
  destruct (st_drive s !! name); by intros [= <- <-].
Qed.

Lemma returns_client_open name : returns (fun a => a = name) (client_open name).
Proof.
  unfold client_open. apply returns_bind. intros _.
  intros s a s'. unfold mbind, M_bind, get_drive.
  destruct (st_drive s !! name); by intros [= <- <-].
Qed.

Lemma keeps_spreadsheet_worksheet R `{!PreOrder R} name title :
  keeps R (spreadsheet_worksheet sv name title).
Proof.
  unfold spreadsheet_worksheet.
  apply keeps_bind; [apply _|apply keeps_remote; apply _|]. intros _.
  intros s r s'. unfold mbind, M_bind, get_drive.
  destruct (find_tab (st_drive s) name title) as [[t ws]|]; by intros [= <- <-].
Qed.

Lemma returns_spreadsheet_worksheet name title :
  returns (fun t => title = PStr t) (spreadsheet_worksheet sv name title).
Proof.
  unfold spreadsheet_worksheet. apply returns_bind. intros _.
  intros s a s'. unfold mbind, M_bind, get_drive.
  destruct (find_tab (st_drive s) name title) as [[t ws]|] eqn:Htab; [|done].
  intros [= <- <-]. unfold find_tab in Htab. destruct title; try done.
  destruct (st_drive s !! name) as [sh|]; [|done]. simpl in Htab.
  destruct (sh !! s0); [|done]. by injection Htab as <- _.
Qed.

Lemma keeps_spreadsheet_add_worksheet name title t :
  title = PStr t ->
  keeps (appends_to name t) (spreadsheet_add_worksheet sv name title).
Proof.
  intros ->. unfold spreadsheet_add_worksheet.
  apply keeps_bind; [apply _|apply keeps_remote; apply _|]. intros _.
  intros s r s'. unfold mbind, M_bind, get_drive, put_drive, raise.
  destruct (st_drive s !! name) as [sh|] eqn:Hsh; [|intros [= <- <-]; by left].
  destruct (sh !! t) eqn:Ht; [intros [= <- <-]; by left|].
  intros [= <- <-]. right. exists sh, []. split; [done|]. simpl. by rewrite Ht.
Qed.

Lemma returns_spreadsheet_add_worksheet name title :
  returns (fun t => title = PStr t) (spreadsheet_add_worksheet sv name title).
Proof.
  unfold spreadsheet_add_worksheet. apply returns_bind. intros _.
  intros s a s'. unfold mbind, M_bind, get_drive, put_drive, raise.
  destruct title; try done.
  destruct (st_drive s !! name) as [sh|]; [|done].
  destruct (sh !! s0); [done|]. by intros [= <- <-].
Qed.

Lemma keeps_worksheet_append_row name t r :
  keeps (appends_to name t) (worksheet_append_row name t r).
Proof.
  unfold worksheet_append_row.
  apply keeps_bind; [apply _|apply keeps_remote; apply _|]. intros _.
  intros s r0 s'. unfold mbind, M_bind, get_drive, put_drive, raise.
  destruct (st_drive s !! name) as [sh|] eqn:Hsh; simpl; [|intros [= <- <-]; by left].
  destruct (sh !! t) as [ws|] eqn:Ht; simpl; [|intros [= <- <-]; by left].
  intros [= <- <-]. right. exists sh, [r]. split; [done|]. by rewrite Ht.
Qed.

End SheetFrame.

Lemma returns_bind_returns {A B} (Q : A -> Prop) (P : B -> Prop) (m : M A) (f : A -> M B) :
  returns Q m -> (forall a, Q a -> returns P (f a)) -> returns P (m ≫= f).
Proof.
  intros Hm Hf s b s'. unfold mbind, M_bind.
  destruct (m s) as [[a|e] s1] eqn:Hrun; [|done].
  exact (Hf a (Hm _ _ _ Hrun) _ _ _).
Qed.

(** What [appends_to] says, spelled out on the drive. *)
Lemma appends_to_spec name t (d d' : gmap string (gmap string (list (list pyval)))) :
  appends_to name t d d' ->
  (forall n, n <> name -> d' !! n = d !! n)
  /\ (d !! name = None -> d' !! name = None)
  /\ (forall sheet, d !! name = Some sheet ->
        exists sheet',
          d' !! name = Some sheet'
          /\ (forall t', t' <> t -> sheet' !! t' = sheet !! t')
          /\ (forall ws, sheet !! t = Some ws ->
                exists rows, sheet' !! t = Some (ws ++ rows)%list)).
Proof.
  intros [->|(sheet & rows & Hsheet & ->)].
  - split; [done|]. split; [done|]. intros sheet Hsheet. exists sheet.
    split; [done|]. split; [done|]. intros ws Hws. exists []. by rewrite app_nil_r.
  - split; [intros n Hn; by rewrite lookup_insert_ne|].
    split; [by rewrite Hsheet|].
    intros sheet0. rewrite Hsheet. intros [= <-].
    exists (<[t := (default [] (sheet !! t) ++ rows)%list]> sheet).
    split; [apply lookup_insert_eq|].
    split; [intros t' Ht'; by rewrite lookup_insert_ne|].
    intros ws Hws. exists rows. by rewrite lookup_insert_eq, Hws.
Qed.

Section WriterFrame.

Variable sv : services.

(** The writer only appends to the tab of the market. *)
Lemma keeps_update_google_sheet_try data m :
  dict_get data "Market" (PStr "Unknown") = PStr m ->
  keeps (appends_to (sheet_name sv) m) (update_google_sheet_try sv data).
Proof.
  intros Hm. unfold update_google_sheet_try. fold (sheet_name sv). rewrite Hm.
  set (R := appends_to (sheet_name sv) m).
  apply keeps_bind; [apply _|apply keeps_print; apply _|]. intros _.
  apply keeps_bind; [apply _|apply keeps_get_gspread_client; apply _|]. intros _.
  apply keeps_bind; [apply _|apply keeps_print; apply _|]. intros _.
  apply keeps_bind; [apply _|apply keeps_print; apply _|]. intros _.
  apply (keeps_bind_returns R (fun a => a = sheet_name sv));
    [apply keeps_client_open; apply _|apply returns_client_open|].
  intros spreadsheet ->.
  apply keeps_bind; [apply _|apply keeps_print; apply _|]. intros _.
  apply keeps_bind; [apply _|apply keeps_print; apply _|]. intros _.
  apply (keeps_bind_returns R (fun t => PStr m = PStr t)).
  - apply keeps_try; [apply _| |].
    + apply keeps_bind; [apply _|apply keeps_spreadsheet_worksheet; apply _|]. intros t.
      apply keeps_bind; [apply _|apply keeps_print; apply _|]. intros _.
      apply keeps_ret; apply _.
    + intros e. destruct (bool_decide _); [|apply keeps_raise; apply _].
      apply keeps_bind; [apply _|apply keeps_print; apply _|]. intros _.
      apply (keeps_bind_returns R (fun t => PStr m = PStr t));
        [by apply keeps_spreadsheet_add_worksheet
        |apply returns_spreadsheet_add_worksheet|].
      intros t [= <-].
      apply keeps_bind; [apply _|apply keeps_worksheet_append_row|]. intros _.
      apply keeps_bind; [apply _|apply keeps_print; apply _|]. intros _.
      apply keeps_ret; apply _.
  - apply returns_try.
    + apply (returns_bind_returns (fun t => PStr m = PStr t));
        [apply returns_spreadsheet_worksheet|].
      intros t Ht. apply returns_bind. intros _. by apply returns_ret.
    + intros e. destruct (bool_decide _); [|apply returns_raise].
      apply returns_bind. intros _.
      apply (returns_bind_returns (fun t => PStr m = PStr t));
        [apply returns_spreadsheet_add_worksheet|].
      intros t Ht. apply returns_bind. intros _. apply returns_bind. intros _.
      by apply returns_ret.
  - intros t [= <-].
    apply keeps_bind; [apply _|apply keeps_print; apply _|]. intros _.
    apply keeps_bind; [apply _|apply keeps_worksheet_append_row|]. intros _.
    apply keeps_print; apply _.
Qed.

Lemma keeps_update_google_sheet data m :
  dict_get data "Market" (PStr "Unknown") = PStr m ->
  keeps (appends_to (sheet_name sv) m) (update_google_sheet sv data).
Proof.
  intros Hm. unfold update_google_sheet.
  apply keeps_try; [apply _|by apply keeps_update_google_sheet_try|].
  intros e. apply keeps_print; apply _.
Qed.

End WriterFrame.

Section WriterTheorems.

Variable sv : services.

(** X13. Whatever the spreadsheet service answers, [update_google_sheet]
    changes at most one tab: every other spreadsheet is as before, no
    spreadsheet is created, and in the report spreadsheet every tab other
    than the one of the record's market is as before. *)
Theorem update_google_sheet_frame data s m :
  dict_get data "Market" (PStr "Unknown") = PStr m ->
  let d := st_drive s in
  let d' := st_drive (snd (update_google_sheet sv data s)) in
  (forall n, n <> sheet_name sv -> d' !! n = d !! n)
  /\ (d !! sheet_name sv = None -> d' !! sheet_name sv = None)
  /\ (forall sheet,
        d !! sheet_name sv = Some sheet ->
        exists sheet',
          d' !! sheet_name sv = Some sheet'
          /\ forall t, t <> m -> sheet' !! t = sheet !! t).
Proof.
  intros Hm d d'.
  destruct (update_google_sheet sv data s) as [r s'] eqn:Hrun.
  destruct (appends_to_spec _ _ _ _ (keeps_update_google_sheet sv data m Hm _ _ _ Hrun))
    as (Hother & Hnone & Hsheet).
  split; [exact Hother|]. split; [exact Hnone|].
  intros sheet Hs. destruct (Hsheet sheet Hs) as (sheet' & Hs' & Htabs & _).
  by exists sheet'.
Qed.

(** X14. Whatever the spreadsheet service answers, [update_google_sheet]
    removes and rewrites nothing: the rows that the tab of the market held
    before are still there, in place, followed by the rows added. *)
Theorem update_google_sheet_append_only data s m sheet ws :
  dict_get data "Market" (PStr "Unknown") = PStr m ->
  st_drive s !! sheet_name sv = Some sheet ->
  sheet !! m = Some ws ->
  exists sheet' rows,
    st_drive (snd (update_google_sheet sv data s)) !! sheet_name sv = Some sheet'
    /\ sheet' !! m = Some (ws ++ rows)%list.
Proof.
  intros Hm Hs Hws.
  destruct (update_google_sheet sv data s) as [r s'] eqn:Hrun.
  destruct (appends_to_spec _ _ _ _ (keeps_update_google_sheet sv data m Hm _ _ _ Hrun))
    as (_ & _ & Hsheet).
  destruct (Hsheet sheet Hs) as (sheet' & Hs' & _ & Hrows).
  destruct (Hrows ws Hws) as (rows & Hrows'). by exists sheet', rows.
Qed.

(** The market that the handler derives for a body, read off the services:
    the extraction does not depend on the state. *)
Lemma returns_extract_data_from_email email_body :
  returns
    (fun v =>
       exists text,
         generate_content sv (PROMPT ++ email_body) = Ok text
         /\ json_loads sv (clean_json_response text) = Ok v)
    (extract_data_from_email sv email_body).
Proof.
  intros s v s'. rewrite extract_data_from_email_run. cbv zeta.
  destruct (generate_content sv (PROMPT ++ email_body)) as [text|e]; [|done].
  destruct (json_loads sv (clean_json_response text)) as [v0|e] eqn:Hj; [|done].
  intros [= <- _]. by exists text.
Qed.

Lemma handle_email_keeps form :
  exists m,
    (m = NO_MATCH \/ m ∈ MARKET_NAMES)
    /\ keeps (appends_to (sheet_name sv) m) (handle_email sv form).
Proof.
  set (email_body := default "" (form !! "text")).
  set (pick v := match v with
                 | PDict d =>
                     get_market_from_cer
                       (PStr (py_str sv (dict_get d "Ardent CER#" (PStr ""))))
                 | _ => NO_MATCH
                 end).
  set (m := match generate_content sv (PROMPT ++ email_body) with
            | Ok text =>
                match json_loads sv (clean_json_response text) with
                | Ok v => pick v
                | Raise _ => NO_MATCH
                end
            | Raise _ => NO_MATCH
            end).
  exists m. split.
  { unfold m, pick.
    destruct (generate_content sv (PROMPT ++ email_body)) as [text|]; [|by left].
    destruct (json_loads sv (clean_json_response text)) as [[| | | | | |d]|];
      try (by left).
    apply get_market_from_cer_in_names. }
  set (R := appends_to (sheet_name sv) m).
  unfold handle_email.
  apply keeps_bind; [apply _|apply keeps_print; apply _|]. intros _. cbv zeta.
  destruct (negb _); [apply keeps_ret; apply _|].
  fold email_body.
  apply keeps_try; [apply _| |].
  2:{ intros e. apply keeps_bind; [apply _|apply keeps_print; apply _|]. intros _.
      apply keeps_ret; apply _. }
  unfold handle_email_try.
  apply keeps_bind; [apply _|apply keeps_emit; apply _|]. intros _.
  apply keeps_bind;
    [apply _|apply keeps_quiet; [apply _|apply GeminiProcessor_init_quiet]|].
  intros _.
  eapply keeps_bind_returns;
    [apply _
    |apply keeps_quiet; [apply _|apply extract_data_from_email_quiet]
    |apply returns_extract_data_from_email|].
  intros v (text & Hgen & Hjson).
  assert (m = pick v) as Hmv by (unfold m; by rewrite Hgen, Hjson).
  apply (keeps_bind_returns R (fun d0 => as_dict v = Ok d0));
    [apply keeps_lift; apply _|by intros s a s' [= H _]|].
  intros d Hd. destruct v as [| | | | | |d0]; try discriminate Hd.
  injection Hd as ->. change (m = pick (PDict d)) in Hmv. unfold pick in Hmv.
  cbv zeta.
  destruct (negb _).
  { apply keeps_bind; [apply _|apply keeps_print; apply _|]. intros _.
    apply keeps_ret; apply _. }
  apply keeps_bind; [apply _|apply keeps_emit; apply _|]. intros _.
  apply keeps_bind; [apply _|apply keeps_lift; apply _|]. intros date.
  apply keeps_bind; [apply _|apply keeps_emit; apply _|]. intros _.
  apply keeps_bind; [apply _|apply keeps_emit; apply _|]. intros _.
  apply keeps_bind; [apply _| |intros _; apply keeps_ret; apply _].
  apply keeps_update_google_sheet.
  unfold dict_get at 1. rewrite lookup_insert_ne by done.
  rewrite lookup_insert_eq. rewrite Hmv. reflexivity.
Qed.

(** X15. Whatever the request and whatever the services answer,
    [handle_email] removes and rewrites nothing on the drive: spreadsheets
    other than the report are as before, and in the report every tab keeps
    its rows in place; only the tab of one market (one of the nine names of
    the table, or [No Match]) can have rows added at its end. *)
Theorem handle_email_append_only form s :
  let d := st_drive s in
  let d' := st_drive (snd (handle_email sv form s)) in
  exists m,
    (m = NO_MATCH \/ m ∈ MARKET_NAMES)
    /\ (forall n, n <> sheet_name sv -> d' !! n = d !! n)
    /\ (d !! sheet_name sv = None -> d' !! sheet_name sv = None)
    /\ (forall sheet,
          d !! sheet_name sv = Some sheet ->
          exists sheet',
            d' !! sheet_name sv = Some sheet'
            /\ (forall t, t <> m -> sheet' !! t = sheet !! t)
            /\ (forall ws, sheet !! m = Some ws ->
                  exists rows, sheet' !! m = Some (ws ++ rows)%list)).
Proof.
  intros d d'. destruct (handle_email_keeps form) as (m & Hm & Hkeeps).
  exists m. split; [exact Hm|].
  destruct (handle_email sv form s) as [r s'] eqn:Hrun.
  exact (appends_to_spec _ _ _ _ (Hkeeps _ _ _ Hrun)).
Qed.

End WriterTheorems.

(** The theorem on a record for Idaho written to the sample drive. *)
Lemma update_google_sheet_frame_witness :
  let data : gmap string pyval := <["Market" := PStr "Idaho"]> Sample.REPLY_FIELDS in
  let d' := st_drive (snd (update_google_sheet Sample.good data Sample.start)) in
  dict_get data "Market" (PStr "Unknown") = PStr "Idaho"
  /\ (forall n, n <> "CER_Report" -> d' !! n = Sample.DRIVE !! n)
  /\ (forall sheet,
        Sample.DRIVE !! "CER_Report" = Some sheet ->
        exists sheet',
          d' !! "CER_Report" = Some sheet'
          /\ forall t, t <> "Idaho" -> sheet' !! t = sheet !! t).
Proof.
  intros data d'. split; [reflexivity|].
  destruct (update_google_sheet_frame Sample.good data Sample.start "Idaho" eq_refl)
    as (Hother & _ & Hsheet).
  split; [exact Hother|exact Hsheet].
Defined.

(** The theorem on the same record: the header of the tab stays first. *)
Lemma update_google_sheet_append_only_witness :
  let data : gmap string pyval := <["Market" := PStr "Idaho"]> Sample.REPLY_FIELDS in
  exists sheet' rows,
    st_drive (snd (update_google_sheet Sample.good data Sample.start)) !! "CER_Report"
    = Some sheet'
    /\ sheet' !! "Idaho" = Some ([PStr <$> HEADER] ++ rows)%list.
Proof.
  intros data.
  exact (update_google_sheet_append_only Sample.good data Sample.start "Idaho"
           {[ "Idaho" := [PStr <$> HEADER] ]} [PStr <$> HEADER]
           eq_refl eq_refl eq_refl).
Defined.

Section WriterFailures.

Variable sv : services.

(** X16. Without credentials in the environment [update_google_sheet]
    sends nothing to the spreadsheet service: it prints that it connects,
    prints the [ValueError] of [get_gspread_client] and returns, the state
    otherwise untouched. *)
Theorem update_google_sheet_no_credentials data s :
  from_option PyStr.truthy false (getenv sv "GOOGLE_CREDENTIALS_JSON") = false ->
  update_google_sheet sv data s
  = (Ok (),
     log s [Printed LogSheetsConnecting;
            Printed (LogSheetError
                       (Exn ValueError
                          "GOOGLE_CREDENTIALS_JSON environment variable not set."))]).
Proof.
  intros Hcreds.
  assert (forall s0, get_gspread_client sv s0
            = (Raise (Exn ValueError
                        "GOOGLE_CREDENTIALS_JSON environment variable not set."), s0))
    as Hclient.
  { intros s0. unfold get_gspread_client. by rewrite Hcreds. }
  assert (update_google_sheet_try sv data s
          = (Raise (Exn ValueError
                      "GOOGLE_CREDENTIALS_JSON environment variable not set."),
             log s [Printed LogSheetsConnecting])) as Htry.
  { unfold update_google_sheet_try.
    rewrite (bind_run_ok _ _ _ _ _ (print_run _ _)).
    by rewrite (bind_run_raise _ _ _ _ _ (Hclient _)). }
  rewrite (update_google_sheet_caught _ _ _ _ _ Htry). by rewrite log_log.
Qed.

(** X17. When the drive holds no spreadsheet of the configured name, the
    writer asks the service twice (to authorize, to open), prints the
    failure and returns: no tab is looked up or created and the drive is as
    it was. *)
Theorem update_google_sheet_no_spreadsheet data s :
  credentials_accepted sv ->
  st_faults s = [] ->
  st_drive s !! sheet_name sv = None ->
  update_google_sheet sv data s
  = (Ok (),
     log s [Printed LogSheetsConnecting; Remote ApiAuthorize;
            Printed LogSheetsConnected; Printed (LogOpening (sheet_name sv));
            Remote (ApiOpen (sheet_name sv));
            Printed (LogSheetError
                       (Exn (OtherException "SpreadsheetNotFound") (sheet_name sv)))]).
Proof.
  intros Hcreds Hfaults Hnone. destruct s as [drv fs tr]. simpl in *. subst fs.
  erewrite update_google_sheet_caught.
  2:{ unfold update_google_sheet_try. fold (sheet_name sv).
      rewrite (bind_run_ok _ _ _ _ _ (print_run _ _)). unfold log; cbn [st_drive st_faults st_trace].
      rewrite (bind_run_ok _ _ _ _ _ (get_gspread_client_run _ _ _ Hcreds)).
      rewrite (bind_run_ok _ _ _ _ _ (print_run _ _)). unfold log; cbn [st_drive st_faults st_trace].
      rewrite (bind_run_ok _ _ _ _ _ (print_run _ _)). unfold log; cbn [st_drive st_faults st_trace].
      apply bind_run_raise.
      unfold client_open, mbind, M_bind, get_drive. rewrite remote_run.
      cbn [st_drive]. rewrite Hnone. reflexivity. }
  unfold log. cbn [st_drive st_faults st_trace]. by rewrite <- !app_assoc.
Qed.

End WriterFailures.

(** The theorem on services without any environment. *)
Lemma update_google_sheet_no_credentials_witness :
  update_google_sheet Sample.no_key Sample.REPLY_FIELDS Sample.start
  = (Ok (),
     log Sample.start
       [Printed LogSheetsConnecting;
        Printed (LogSheetError
                   (Exn ValueError
                      "GOOGLE_CREDENTIALS_JSON environment variable not set."))]).
Proof.
  exact (update_google_sheet_no_credentials Sample.no_key Sample.REPLY_FIELDS
           Sample.start eq_refl).
Defined.

(** The theorem on an empty drive. *)
Lemma update_google_sheet_no_spreadsheet_witness :
  fst (update_google_sheet Sample.good Sample.REPLY_FIELDS (State ∅ [] [])) = Ok ()
  /\ st_drive (snd (update_google_sheet Sample.good Sample.REPLY_FIELDS (State ∅ [] [])))
     = ∅.
Proof.
  assert (credentials_accepted Sample.good) as Hcreds.
  { exists "{}", (PDict ∅). repeat split; try reflexivity. discriminate. }
  rewrite (update_google_sheet_no_spreadsheet Sample.good Sample.REPLY_FIELDS
             (State ∅ [] []) Hcreds eq_refl (lookup_empty _)).
  split; reflexivity.
Defined.

Section WriterContract.

Variable sv : services.

(** X18. With the client built, no failure scheduled and the spreadsheet on
    the drive, [update_google_sheet] appends exactly one data row to the tab
    named by the record's market, [Unknown] when the record has no market.
    A tab that is there gets no header; a tab that is not there is created
    and gets the header row first. *)
Theorem update_google_sheet_contract data s sheet m :
  credentials_accepted sv ->
  st_faults s = [] ->
  st_drive s !! sheet_name sv = Some sheet ->
  dict_get data "Market" (PStr "Unknown") = PStr m ->
  exists s',
    update_google_sheet sv data s = (Ok (), s')
    /\ st_drive s'
       = <[sheet_name sv :=
             <[m := (default [PStr <$> HEADER] (sheet !! m)
                     ++ [row_to_add data (PStr m)])%list]> sheet]> (st_drive s).
Proof.
  intros Hcreds Hfaults Hsheet Hmarket.
  destruct s as [drv faults tr]. simpl in Hfaults, Hsheet. subst faults. simpl st_drive.
  set (r := row_to_add data (PStr m)).
  cut (exists tr',
         update_google_sheet_try sv data (State drv [] tr)
         = (Ok (), State
              (<[sheet_name sv :=
                   <[m := (default [PStr <$> HEADER] (sheet !! m) ++ [r])%list]> sheet]> drv)
              [] tr')).
  { intros (tr' & Htry). eexists. split.
    - unfold update_google_sheet. by rewrite (try_run_ok _ _ _ _ _ Htry).
    - reflexivity. }
  unfold update_google_sheet_try. fold (sheet_name sv).
  rewrite Hmarket.
  fold r.
  rewrite (bind_run_ok _ _ _ _ _ (print_run _ _)). unfold log; cbn [st_drive st_faults st_trace].
  rewrite (bind_run_ok _ _ _ _ _ (get_gspread_client_run _ _ _ Hcreds)).
  rewrite (bind_run_ok _ _ _ _ _ (print_run _ _)). unfold log; cbn [st_drive st_faults st_trace].
  rewrite (bind_run_ok _ _ _ _ _ (print_run _ _)). unfold log; cbn [st_drive st_faults st_trace].
  rewrite (bind_run_ok _ _ _ _ _ (client_open_run _ _ _ _ Hsheet)).
  rewrite (bind_run_ok _ _ _ _ _ (print_run _ _)). unfold log; cbn [st_drive st_faults st_trace].
  rewrite (bind_run_ok _ _ _ _ _ (print_run _ _)). unfold log; cbn [st_drive st_faults st_trace].
  match goal with
  | |- context [State drv [] ?t0] => generalize t0
  end.
  intros tr0.
  pose proof (spreadsheet_worksheet_run sv (sheet_name sv) sheet m drv tr0 Hsheet) as Hws.
  destruct (sheet !! m) as [ws|] eqn:Htab; cbn [from_option id].
  - rewrite (bind_run_ok _ _ _ m
               (State drv [] ((tr0 ++ [Remote (ApiWorksheet (PStr m))])
                              ++ [Printed (LogFoundTab (PStr m))]))).
    2:{ apply try_run_ok. rewrite (bind_run_ok _ _ _ _ _ Hws).
        by rewrite (bind_run_ok _ _ _ _ _ (print_run _ _)). }
    rewrite (bind_run_ok _ _ _ _ _ (print_run _ _)). unfold log; cbn [st_drive st_faults st_trace].
    rewrite (bind_run_ok _ _ _ _ _
               (worksheet_append_row_run _ _ _ _ _ _ _ Hsheet Htab)).
    rewrite print_run. unfold log; cbn [st_drive st_faults st_trace]. by eexists.
  - rewrite (bind_run_ok _ _ _ m
               (State (<[sheet_name sv := <[m := [PStr <$> HEADER]]> sheet]> drv) []
                  (((((tr0 ++ [Remote (ApiWorksheet (PStr m))])
                      ++ [Printed (LogCreatingTab (PStr m))])
                     ++ [Remote (ApiAddWorksheet (PStr m))])
                    ++ [Remote (ApiAppendRow m (PStr <$> HEADER))])
                   ++ [Printed LogHeaderAdded]))).
    2:{ rewrite (try_run_raise _ _ _ _ _ (bind_run_raise _ _ _ _ _ Hws)).
        rewrite bool_decide_eq_true_2 by done.
        rewrite (bind_run_ok _ _ _ _ _ (print_run _ _)). unfold log; cbn [st_drive st_faults st_trace].
        rewrite (bind_run_ok _ _ _ _ _
                   (spreadsheet_add_worksheet_run _ _ _ _ _ _ Hsheet Htab)).
        rewrite (bind_run_ok _ _ _ _ _
                   (worksheet_append_row_run (sheet_name sv) (<[m := []]> sheet) m []
                      (PStr <$> HEADER) _ _
                      (lookup_insert_eq _ _ _) (lookup_insert_eq _ _ _))).
        rewrite (bind_run_ok _ _ _ _ _ (print_run _ _)). unfold log; cbn [st_drive st_faults st_trace].
        by rewrite !insert_insert_eq. }
    rewrite (bind_run_ok _ _ _ _ _ (print_run _ _)). unfold log; cbn [st_drive st_faults st_trace].
    rewrite (bind_run_ok _ _ _ _ _
               (worksheet_append_row_run (sheet_name sv)
                  (<[m := [PStr <$> HEADER]]> sheet) m [PStr <$> HEADER] r _ _
                  (lookup_insert_eq _ _ _) (lookup_insert_eq _ _ _))).
    rewrite print_run. unfold log; cbn [st_drive st_faults st_trace].
    rewrite !insert_insert_eq. by eexists.
Qed.

End WriterContract.

(** The theorem on a record without a market, written to the sample drive:
    the tab [Unknown] is created with the header and the row. *)
Lemma update_google_sheet_contract_witness :
  exists s',
    update_google_sheet Sample.good Sample.REPLY_FIELDS Sample.start = (Ok (), s')
    /\ (st_drive s' !! "CER_Report" ≫= (.!! "Unknown"))
       = Some [PStr <$> HEADER;
               [PStr "2024-01-05"; PStr "Unknown"; PStr "5510-001"; PStr "315000";
                PStr "ED Expansion"; PStr "Stryker"; PStr "T5"; PStr "Q3 2024";
                PStr "http://erp.example/cer/1"; PStr ""]].
Proof.
  assert (credentials_accepted Sample.good) as Hcreds.
  { exists "{}", (PDict ∅). repeat split; try reflexivity. discriminate. }
  destruct (update_google_sheet_contract Sample.good Sample.REPLY_FIELDS Sample.start
              {[ "Idaho" := [PStr <$> HEADER] ]} "Unknown"
              Hcreds eq_refl eq_refl eq_refl) as (s' & Hrun & Hdrive).
  exists s'. split; [exact Hrun|]. rewrite Hdrive. reflexivity.
Defined.

(** ** A write that fails half way *)

Section WriterPartial.

Variable sv : services.

(** The calls of the spreadsheet service when the next scheduled answer is
    not a failure, and the appending of a row when it is one. *)
Lemma remote_next c drv fs tr :
  remote c (State drv (None :: fs) tr) = (Ok (), State drv fs (tr ++ [Remote c])).
Proof. reflexivity. Qed.

Lemma get_gspread_client_next drv fs tr :
  credentials_accepted sv ->
  get_gspread_client sv (State drv (None :: fs) tr)
  = (Ok (), State drv fs (tr ++ [Remote ApiAuthorize])).
Proof.
  intros (creds_json & creds_dict & Henv & Hne & Hjson & Hcreds).
  unfold get_gspread_client. rewrite Henv. cbn [from_option id].
  rewrite (PyStrFacts.truthy_nonempty _ Hne). change (negb true) with false. cbv iota.
  unfold mbind, M_bind, lift, lift_check.
  by rewrite Hjson, Hcreds.
Qed.

Lemma client_open_next name sheet (drv : gmap string (gmap string (list (list pyval)))) fs tr :
  drv !! name = Some sheet ->
  client_open name (State drv (None :: fs) tr)
  = (Ok name, State drv fs (tr ++ [Remote (ApiOpen name)])).
Proof.
  intros Hsheet. unfold client_open, mbind, M_bind, get_drive.
  rewrite remote_next. simpl. by rewrite Hsheet.
Qed.

Lemma spreadsheet_worksheet_next name (sheet : gmap string (list (list pyval))) m
    (drv : gmap string (gmap string (list (list pyval)))) fs tr :
  drv !! name = Some sheet -> sheet !! m = None ->
  spreadsheet_worksheet sv name (PStr m) (State drv (None :: fs) tr)
  = (Raise (Exn WorksheetNotFound m),
     State drv fs (tr ++ [Remote (ApiWorksheet (PStr m))])).
Proof.
  intros Hsheet Htab. unfold spreadsheet_worksheet, mbind, M_bind, get_drive.
  rewrite remote_next. simpl. rewrite Hsheet. simpl. by rewrite Htab.
Qed.

Lemma spreadsheet_add_worksheet_next name (sheet : gmap string (list (list pyval))) m
    (drv : gmap string (gmap string (list (list pyval)))) fs tr :
  drv !! name = Some sheet -> sheet !! m = None ->
  spreadsheet_add_worksheet sv name (PStr m) (State drv (None :: fs) tr)
  = (Ok m, State (<[name := <[m := []]> sheet]> drv) fs
                 (tr ++ [Remote (ApiAddWorksheet (PStr m))])).
Proof.
  intros Hsheet Htab. unfold spreadsheet_add_worksheet, mbind, M_bind, get_drive.
  rewrite remote_next. simpl. by rewrite Hsheet, Htab.
Qed.

Lemma worksheet_append_row_next name (sheet : gmap string (list (list pyval))) t ws r
    (drv : gmap string (gmap string (list (list pyval)))) fs tr :
  drv !! name = Some sheet -> sheet !! t = Some ws ->
  worksheet_append_row name t r (State drv (None :: fs) tr)
  = (Ok (), State (<[name := <[t := (ws ++ [r])%list]> sheet]> drv) fs
                  (tr ++ [Remote (ApiAppendRow t r)])).
Proof.
  intros Hsheet Htab. unfold worksheet_append_row, mbind, M_bind, get_drive.
  rewrite remote_next. simpl. rewrite Hsheet. simpl. by rewrite Htab.
Qed.

Lemma worksheet_append_row_fault name t r e drv fs tr :
  worksheet_append_row name t r (State drv (Some e :: fs) tr)
  = (Raise e, State drv fs (tr ++ [Remote (ApiAppendRow t r)])).
Proof. reflexivity. Qed.

(** The writer up to the lookup of the tab, for a market without a tab:
    the tab is about to be created. *)
Lemma update_google_sheet_try_new_tab data drv fs tr sheet m :
  credentials_accepted sv ->
  drv !! sheet_name sv = Some sheet ->
  dict_get data "Market" (PStr "Unknown") = PStr m ->
  sheet !! m = None ->
  exists tr',
    update_google_sheet_try sv data (State drv (None :: None :: None :: None :: fs) tr)
    = (t ← (worksheet_append_row (sheet_name sv) m (PStr <$> HEADER);;
            print LogHeaderAdded;;
            mret m);
       let r := row_to_add data (PStr m) in
       print (LogPreparingRow r);;
       worksheet_append_row (sheet_name sv) t r;;
       print (LogWroteTab (PStr m)))
        (State (<[sheet_name sv := <[m := []]> sheet]> drv) fs tr').
Proof.
  intros Hcreds Hsheet Hmarket Htab.
  unfold update_google_sheet_try. fold (sheet_name sv). rewrite Hmarket.
  rewrite (bind_run_ok _ _ _ _ _ (print_run _ _)). unfold log; cbn [st_drive st_faults st_trace].
  rewrite (bind_run_ok _ _ _ _ _ (get_gspread_client_next _ _ _ Hcreds)).
  rewrite (bind_run_ok _ _ _ _ _ (print_run _ _)). unfold log; cbn [st_drive st_faults st_trace].
  rewrite (bind_run_ok _ _ _ _ _ (print_run _ _)). unfold log; cbn [st_drive st_faults st_trace].
  rewrite (bind_run_ok _ _ _ _ _ (client_open_next _ _ _ _ _ Hsheet)).
  rewrite (bind_run_ok _ _ _ _ _ (print_run _ _)). unfold log; cbn [st_drive st_faults st_trace].
  rewrite (bind_run_ok _ _ _ _ _ (print_run _ _)). unfold log; cbn [st_drive st_faults st_trace].
  eexists. unfold mbind at 1, M_bind at 1.
  rewrite (try_run_raise _ _ _ _ _
             (bind_run_raise _ _ _ _ _
                (spreadsheet_worksheet_next _ _ _ _ _ _ Hsheet Htab))).
  rewrite bool_decide_eq_true_2 by done.
  rewrite (bind_run_ok _ _ _ _ _ (print_run _ _)). unfold log; cbn [st_drive st_faults st_trace].
  rewrite (bind_run_ok _ _ _ _ _
             (spreadsheet_add_worksheet_next _ _ _ _ _ _ Hsheet Htab)).
  reflexivity.
Qed.

(** X19. The writer does not undo what it has done.  For a market without
    a tab: when the service fails the appending of the header, the new tab
    stays on the drive without any row; when it fails the appending of the
    data row, the new tab stays with its header only.  In both cases the
    failure is printed and the writer returns normally. *)
Theorem update_google_sheet_partial data s sheet m e fs :
  credentials_accepted sv ->
  st_drive s !! sheet_name sv = Some sheet ->
  dict_get data "Market" (PStr "Unknown") = PStr m ->
  sheet !! m = None ->
  (st_faults s = None :: None :: None :: None :: Some e :: fs ->
   fst (update_google_sheet sv data s) = Ok ()
   /\ st_drive (snd (update_google_sheet sv data s))
      = <[sheet_name sv := <[m := []]> sheet]> (st_drive s))
  /\ (st_faults s = None :: None :: None :: None :: None :: Some e :: fs ->
      fst (update_google_sheet sv data s) = Ok ()
      /\ st_drive (snd (update_google_sheet sv data s))
         = <[sheet_name sv := <[m := [PStr <$> HEADER]]> sheet]> (st_drive s)).
Proof.
  intros Hcreds Hsheet Hmarket Htab.
  destruct s as [drv faults tr]. cbn [st_drive st_faults] in *.
  split; intros ->.
  - destruct (update_google_sheet_try_new_tab data drv (Some e :: fs) tr sheet m
                Hcreds Hsheet Hmarket Htab) as (tr' & Htry).
    rewrite (bind_run_raise _ _ _ e
               (State (<[sheet_name sv := <[m := []]> sheet]> drv) fs
                  (tr' ++ [Remote (ApiAppendRow m (PStr <$> HEADER))]))) in Htry.
    2:{ apply bind_run_raise. apply worksheet_append_row_fault. }
    by rewrite (update_google_sheet_caught _ _ _ _ _ Htry).
  - destruct (update_google_sheet_try_new_tab data drv (None :: Some e :: fs) tr sheet m
                Hcreds Hsheet Hmarket Htab) as (tr' & Htry).
    rewrite (bind_run_ok _ _ _ m
               (State (<[sheet_name sv := <[m := [PStr <$> HEADER]]> sheet]> drv)
                  (Some e :: fs)
                  ((tr' ++ [Remote (ApiAppendRow m (PStr <$> HEADER))])
                   ++ [Printed LogHeaderAdded]))) in Htry.
    2:{ rewrite (bind_run_ok _ _ _ _ _
                   (worksheet_append_row_next (sheet_name sv) (<[m := []]> sheet) m []
                      (PStr <$> HEADER) _ _ _
                      (lookup_insert_eq _ _ _) (lookup_insert_eq _ _ _))).
        rewrite (bind_run_ok _ _ _ _ _ (print_run _ _)).
        unfold log; cbn [st_drive st_faults st_trace].
        by rewrite !insert_insert_eq. }
    cbv zeta in Htry.
    rewrite (bind_run_ok _ _ _ _ _ (print_run _ _)) in Htry.
    unfold log in Htry; cbn [st_drive st_faults st_trace] in Htry.
    rewrite (bind_run_raise _ _ _ _ _ (worksheet_append_row_fault _ _ _ _ _ _ _)) in Htry.
    by rewrite (update_google_sheet_caught _ _ _ _ _ Htry).
Qed.

End WriterPartial.

(** The theorem on a record for Kansas, which has no tab on the sample
    drive, with a service that fails the fifth call. *)
Lemma update_google_sheet_partial_witness :
  let data : gmap string pyval := <["Market" := PStr "Kansas"]> Sample.REPLY_FIELDS in
  let e := Exn (OtherException "APIError") "503" in
  let s := State Sample.DRIVE [None; None; None; None; Some e] [] in
  fst (update_google_sheet Sample.good data s) = Ok ()
  /\ st_drive (snd (update_google_sheet Sample.good data s))
     = <["CER_Report" := <["Kansas" := []]> {[ "Idaho" := [PStr <$> HEADER] ]}]>
         Sample.DRIVE.
Proof.
  intros data e s.
  assert (credentials_accepted Sample.good) as Hcreds.
  { exists "{}", (PDict ∅). repeat split; try reflexivity. discriminate. }
  destruct (update_google_sheet_partial Sample.good data s
              {[ "Idaho" := [PStr <$> HEADER] ]} "Kansas" e []
              Hcreds eq_refl eq_refl eq_refl) as [Hheader _].
  exact (Hheader eq_refl).
Defined.

(** ** The webhook as a whole *)

Section HandlerTheorems.

Variable sv : services.

(** X20. [handle_email] never raises: every request gets an answer, and
    the answer is 200 with the text of success, 400 with one of the two
    texts of failure, or 500 with the message of an exception. *)
Theorem handle_email_answers form s :
  exists r s',
    handle_email sv form s = (Ok r, s')
    /\ ((status r = 200
         /\ body r = CHECK_MARK ++ " Success: Email processed and sheet updated.")
        \/ (status r = 400
            /\ (body r = "Failed: No email body content."
                \/ body r = "Failed: Could not extract CER#."))
        \/ (status r = 500
            /\ exists e, body r = "Internal server error: " ++ exn_msg e)).
Proof.
  destruct (handle_email_cases sv form s)
    as [[_ H]|[(e & evs & H & _)|[(evs & H & _)|(evs & data & s1 & H & _)]]];
    rewrite H; eexists _, _; (split; [reflexivity|]); simpl.
  - right; left. split; [done|]. by left.
  - right; right. split; [done|]. by exists e.
  - right; left. split; [done|]. by right.
  - by left.
Qed.

(** X21. Without an API key a request with a body is answered 500 before
    anything is sent out: the events of the request are the entry into the
    extraction client and two printed lines, no prompt goes to the
    generation service and no call to the spreadsheet service. *)
Theorem handle_email_no_key form s email_body :
  form !! "text" = Some email_body -> email_body <> "" ->
  from_option PyStr.truthy false (getenv sv "GEMINI_API_KEY") = false ->
  let e := Exn ValueError "GEMINI_API_KEY not found in environment variables." in
  handle_email sv form s
  = (Ok (Response
           "Internal server error: GEMINI_API_KEY not found in environment variables."
           500),
     log s [Printed LogWebhookReceived; Entered ExtractionClient;
            Printed (LogApiConfigError e); Printed (LogCriticalError e)]).
Proof.
  intros Hbody Hne Hkey e.
  rewrite (handle_email_with_body sv form s email_body Hbody Hne).
  pose proof (handle_email_try_init_raises sv email_body (form_get form "from")
                (log s [Printed LogWebhookReceived])) as Htry.
  rewrite log_log in Htry.
  rewrite (try_run_raise _ _ _ _ _
             (Htry _ _ (GeminiProcessor_init_no_key sv _ Hkey))).
  rewrite (bind_run_ok _ _ _ _ _ (print_run _ _)). by rewrite !log_log.
Qed.

(** X22. The row of a processed request, field by field, for any record:
    a field that the reply lacks gives an empty cell, a missing date an
    empty date; the Market and Source Email cells are the derived market and
    the sender of the form, whatever the reply holds under these names. *)
Theorem handle_email_row_defaults form s email_body s1 d s2 date sheet :
  form !! "text" = Some email_body -> email_body <> "" ->
  GeminiProcessor_init sv
    (log s [Printed LogWebhookReceived; Entered ExtractionClient]) = (Ok (), s1) ->
  extract_data_from_email sv email_body s1 = (Ok (PDict d), s2) ->
  let cer := dict_get d "Ardent CER#" (PStr "") in
  py_str sv cer <> "" ->
  format_date_string (parse sv) (dict_get d "Forwarded Date" PNone) = Ok date ->
  credentials_accepted sv ->
  st_faults s = [] ->
  st_drive s !! sheet_name sv = Some sheet ->
  let market := get_market_from_cer (PStr (py_str sv cer)) in
  let new_row :=
    [date; PStr market; cer; dict_get d "Capital $" (PStr "");
     dict_get d "Notes" (PStr ""); dict_get d "Mfg" (PStr "");
     dict_get d "Model" (PStr ""); dict_get d "ETA/Install" (PStr "");
     dict_get d "URL" (PStr ""); form_get form "from"] in
  (d !! "Forwarded Date" = None -> date = PStr "")
  /\ exists s',
       handle_email sv form s
       = (Ok (Response (CHECK_MARK ++ " Success: Email processed and sheet updated.") 200),
          s')
       /\ st_drive s'
          = <[sheet_name sv :=
                <[market := (default [PStr <$> HEADER] (sheet !! market)
                             ++ [new_row])%list]> sheet]> (st_drive s).
Proof.
  intros Hbody Hne Hinit Hextract cer Hcer_ne Hdate Hcreds Hfaults Hsheet market new_row.
  split.
  { intros Hnone. unfold dict_get in Hdate. rewrite Hnone in Hdate.
    simpl in Hdate. by injection Hdate as <-. }
  destruct (quiet_run_state _ _ _ _ (GeminiProcessor_init_quiet sv) Hinit) as [Hd1 Hf1].
  destruct (quiet_run_state _ _ _ _ (extract_data_from_email_quiet sv email_body) Hextract)
    as [Hd2 Hf2].
  rewrite Hd1 in Hd2. rewrite Hf1 in Hf2. simpl in Hd2, Hf2.
  rewrite (handle_email_with_body sv form s email_body Hbody Hne).
  pose proof (handle_email_try_extracted sv email_body (form_get form "from")
                (log s [Printed LogWebhookReceived]) s1 d s2) as Htry.
  rewrite log_log in Htry. specialize (Htry Hinit Hextract). cbv zeta in Htry.
  fold cer in Htry.
  rewrite (PyStrFacts.truthy_nonempty _ Hcer_ne), Hdate in Htry.
  change (negb true) with false in Htry. cbv iota in Htry. fold market in Htry.
  set (data := <["Source Email" := form_get form "from"]>
                 (<["Market" := PStr market]> (<["Forwarded Date" := date]> d))) in *.
  destruct (update_google_sheet_writes sv data
              (log s2 [Entered DateNormalizer; Entered Classifier; Entered SheetWriter])
              sheet market Hcreds) as (s' & Hup & Hdrive).
  { simpl. by rewrite Hf2. }
  { simpl. by rewrite Hd2. }
  { unfold data. rewrite lookup_insert_ne by done. apply lookup_insert_eq. }
  rewrite Hup in Htry. simpl snd in Htry.
  exists s'. split; [by rewrite (try_run_ok _ _ _ _ _ Htry)|].
  rewrite Hdrive. simpl st_drive. rewrite Hd2.
  replace (row_to_add data (PStr market)) with new_row; [done|].
  unfold row_to_add, new_row, cer, dict_get, data.
  by repeat (rewrite lookup_insert_eq || rewrite lookup_insert_ne by done).
Qed.

End HandlerTheorems.

(** The theorem on a request served without a key. *)
Lemma handle_email_no_key_witness :
  let e := Exn ValueError "GEMINI_API_KEY not found in environment variables." in
  handle_email Sample.no_key Sample.FORM Sample.start
  = (Ok (Response
           "Internal server error: GEMINI_API_KEY not found in environment variables."
           500),
     log Sample.start
       [Printed LogWebhookReceived; Entered ExtractionClient;
        Printed (LogApiConfigError e); Printed (LogCriticalError e)]).
Proof.
  exact (handle_email_no_key Sample.no_key Sample.FORM Sample.start Sample.BODY
           eq_refl ltac:(discriminate) eq_refl).
Defined.

(** The theorem on a reply that holds the request number only, besides a
    market of its own making: the row goes to the tab of Idaho, which is
    there, with empty cells. *)
Lemma handle_email_row_defaults_witness :
  exists s',
    handle_email sparse Sample.FORM Sample.start
    = (Ok (Response (CHECK_MARK ++ " Success: Email processed and sheet updated.") 200), s')
    /\ (st_drive s' !! "CER_Report" ≫= (.!! "Idaho"))
       = Some [PStr <$> HEADER;
               [PStr ""; PStr "Idaho"; PStr "5400-17"; PStr ""; PStr ""; PStr "";
                PStr ""; PStr ""; PStr ""; PStr "relay@example.com"]].
Proof.
  set (s1 := log Sample.start [Printed LogWebhookReceived; Entered ExtractionClient]).
  set (s2 := log s1 [Generate (PROMPT ++ Sample.BODY)]).
  assert (GeminiProcessor_init sparse s1 = (Ok (), s1)) as Hinit
    by (vm_compute; reflexivity).
  assert (extract_data_from_email sparse Sample.BODY s1 = (Ok (PDict SPARSE_FIELDS), s2))
    as Hextract by (vm_compute; reflexivity).
  assert (credentials_accepted sparse) as Hcreds.
  { exists "{}", (PDict ∅). repeat split; try reflexivity. discriminate. }
  destruct (handle_email_row_defaults sparse Sample.FORM Sample.start Sample.BODY
              s1 SPARSE_FIELDS s2 (PStr "") {[ "Idaho" := [PStr <$> HEADER] ]}
              eq_refl ltac:(discriminate) Hinit Hextract
              ltac:(discriminate) eq_refl Hcreds eq_refl eq_refl)
    as (_ & s' & Hrun & Hdrive).
  exists s'. split; [exact Hrun|]. rewrite Hdrive. reflexivity.
Defined.

(** The theorem on the sample request. *)
Lemma handle_email_append_only_witness :
  let d' := st_drive (snd (handle_email Sample.good Sample.FORM Sample.start)) in
  exists m,
    (m = NO_MATCH \/ m ∈ MARKET_NAMES)
    /\ (forall n, n <> "CER_Report" -> d' !! n = Sample.DRIVE !! n)
    /\ (forall sheet,
          Sample.DRIVE !! "CER_Report" = Some sheet ->
          exists sheet',
            d' !! "CER_Report" = Some sheet'
            /\ (forall t, t <> m -> sheet' !! t = sheet !! t)
            /\ (forall ws, sheet !! m = Some ws ->
                  exists rows, sheet' !! m = Some (ws ++ rows)%list)).
Proof.
  intros d'.
  destruct (handle_email_append_only Sample.good Sample.FORM Sample.start)
    as (m & Hm & Hother & _ & Hsheet).
  exists m. split; [exact Hm|]. split; [exact Hother|exact Hsheet].
Defined.
